(** * Stride fees service: price cache, fee calculator and the single-chain endpoint

    A shallow embedding of [stride_client.py] (class [StrideClient]) and of the
    handler [get_chain_fees] of [main.py].

    - Python floats are IEEE 754 binary64 values, taken from the Standard
      Library's executable specification [SpecFloat] (precision 53, emax 1024).
    - Values decoded from JSON are the inductive type [value]; [VNone] is
      Python's [None] (JSON [null]).  A JSON number is carried as the binary64
      value Python uses for it in float arithmetic.
    - [datetime.now()] reads a wall clock owned by the environment: the k-th
      reading of a run is [clock E k]; times are microseconds in [Z].
    - [self.client.get] talks to a remote owned by the environment: the reply
      to the n-th request of a run is [remote E n req]; every request sent is
      appended to the log [sent].
    - A coroutine is a function from the world before to an outcome (a value
      or a raised exception) and the world after; the code is followed one
      task at a time. *)

From Stdlib Require Import ZArith SpecFloat.
From stdpp Require Import gmap strings list.

Open Scope Z_scope.

(** ** Python values *)

Module Float.

Definition prec : Z := 53.
Definition emax : Z := 1024.

Definition mul : spec_float -> spec_float -> spec_float := SFmul prec emax.
Definition div : spec_float -> spec_float -> spec_float := SFdiv prec emax.

(** [float(n)] for a Python int [n]. *)
Definition of_Z (z : Z) : spec_float :=
  match z with
  | Z0 => S754_zero false
  | Zpos p => binary_normalize prec emax (Zpos p) 0 false
  | Zneg p => binary_normalize prec emax (Zpos p) 0 true
  end.

(** The decimal literal [n/d] for ints [n], [d] that binary64 holds exactly:
    a literal and a division are both rounded to nearest from the exact
    quotient. *)
Definition lit (n d : Z) : spec_float := div (of_Z n) (of_Z d).

Definition is_zero (x : spec_float) : bool :=
  match x with S754_zero _ => true | _ => false end.

Definition is_finite (x : spec_float) : bool :=
  match x with S754_zero _ | S754_finite _ _ _ => true | _ => false end.

End Float.

#[local] Unset Elimination Schemes.
Inductive value : Type :=
| VNone
| VBool (b : bool)
| VNum (x : spec_float)
| VStr (s : string)
| VList (l : list value)
| VDict (items : list (string * value)).
#[local] Set Elimination Schemes.

Inductive exn : Type :=
| ValueError (msg : string)
| KeyError (key : string)
| AttributeError
| TypeError
| RequestError       (* httpx: the request could not be completed *)
| HTTPStatusError    (* httpx: raise_for_status on a 4xx/5xx reply *)
| JSONDecodeError.   (* response.json() on a body that is not JSON *)

Inductive result (A : Type) : Type :=
| Ok (a : A)
| Raise (e : exn).
Arguments Ok {A} a.
Arguments Raise {A} e.

Definition rbind {A B} (r : result A) (k : A -> result B) : result B :=
  match r with
  | Ok a => k a
  | Raise e => Raise e
  end.

(** [str(e)] for the exceptions whose text the handlers use. *)
Definition str_exn (e : exn) : string :=
  match e with
  | ValueError msg => msg
  | KeyError k => "'" +:+ k +:+ "'"
  | _ => ""
  end.

(** [except ValueError]: [json.JSONDecodeError] is a subclass of
    [ValueError]. *)
Definition is_ValueError (e : exn) : bool :=
  match e with
  | ValueError _ | JSONDecodeError => true
  | _ => false
  end.

(** Association lists with Python's [dict] behaviour: a lookup finds the
    entry of a key, an assignment to a key already present keeps its place,
    a new key goes to the end; iteration follows the list. *)
Fixpoint dict_get {V : Type} (d : list (string * V)) (k : string) : option V :=
  match d with
  | [] => None
  | (k', v) :: rest => if String.eqb k' k then Some v else dict_get rest k
  end.

Fixpoint dict_set {V : Type} (d : list (string * V)) (k : string) (v : V)
  : list (string * V) :=
  match d with
  | [] => [(k, v)]
  | (k', v') :: rest =>
      if String.eqb k' k then (k', v) :: rest else (k', v') :: dict_set rest k v
  end.

(** [obj.get(key, default)]: only a dict has the method. *)
Definition py_get (obj : value) (key : string) (default : value) : result value :=
  match obj with
  | VDict items =>
      match dict_get items key with
      | Some v => Ok v
      | None => Ok default
      end
  | _ => Raise AttributeError
  end.

(** Truth value of an object, as [if x:] and [not x] use it. *)
Definition truthy (v : value) : bool :=
  match v with
  | VNone => false
  | VBool b => b
  | VNum x => negb (Float.is_zero x)
  | VStr s => negb (String.eqb s "")
  | VList l => match l with [] => false | _ => true end
  | VDict items => match items with [] => false | _ => true end
  end.

(** [str.lower()] on the ASCII letters.  No key of the tables below contains
    a character that a non-ASCII character lowers to, so membership of a
    lowered name in a table is decided by the ASCII letters alone. *)
Definition lower_ascii (c : Ascii.ascii) : Ascii.ascii :=
  let n := Ascii.nat_of_ascii c in
  if ((65 <=? n)%nat && (n <=? 90)%nat)%bool then Ascii.ascii_of_nat (n + 32) else c.

Fixpoint lower (s : string) : string :=
  match s with
  | EmptyString => EmptyString
  | String c rest => String (lower_ascii c) (lower rest)
  end.

(** [sep.join(parts)] *)
Fixpoint join (sep : string) (parts : list string) : string :=
  match parts with
  | [] => ""
  | [p] => p
  | p :: rest => p +:+ sep +:+ join sep rest
  end.

(** [s.startswith(p)] *)
Fixpoint startswith (s p : string) : bool :=
  match p, s with
  | EmptyString, _ => true
  | String a p', String b s' => if Ascii.eqb a b then startswith s' p' else false
  | String _ _, EmptyString => false
  end.

(** ** The class constants of [StrideClient] *)

Definition CHAIN_ID_MAP : list (string * string) :=
  [ ("cosmos", "cosmoshub-4"); ("celestia", "celestia"); ("osmosis", "osmosis-1");
    ("dydx", "dydx-mainnet-1"); ("dymension", "dymension_1100-1");
    ("juno", "juno-1"); ("stargaze", "stargaze-1"); ("terra", "phoenix-1");
    ("terra2", "phoenix-1"); ("evmos", "evmos_9001-2");
    ("injective", "injective-1"); ("umee", "umee-1"); ("comdex", "comdex-1");
    ("haqq", "haqq_11235-1"); ("band", "laozi-mainnet") ]%string.

Definition COINGECKO_IDS : list (string * string) :=
  [ ("cosmos", "cosmos"); ("celestia", "celestia"); ("osmosis", "osmosis");
    ("dydx", "dydx-chain"); ("dymension", "dymension"); ("juno", "juno-network");
    ("stargaze", "stargaze"); ("terra", "terra-luna-2"); ("terra2", "terra-luna-2");
    ("evmos", "evmos"); ("injective", "injective-protocol"); ("umee", "umee");
    ("comdex", "comdex"); ("haqq", "islamic-coin"); ("band", "band-protocol") ]%string.

Definition TOKEN_DECIMALS : list (string * Z) :=
  [ ("cosmos", 6); ("celestia", 6); ("osmosis", 6); ("dydx", 18);
    ("dymension", 18); ("juno", 6); ("stargaze", 6); ("terra", 6);
    ("terra2", 6); ("evmos", 18); ("injective", 18); ("umee", 6);
    ("comdex", 6); ("haqq", 18); ("band", 6) ]%string.

(** [timedelta(minutes=5)], in microseconds. *)
Definition cache_duration : Z := 5 * 60 * 1000000.

(** ** The world: the client's cache and what it exchanges with the outside *)

(** One value of [_price_cache]: [{"price": ..., "timestamp": ...}]. *)
Record entry : Type := Entry { price : value; timestamp : Z }.

(** A GET request: the URL and the query parameters. *)
Record request : Type := Request { url : string; params : list (string * string) }.

(** What [client.get], [raise_for_status] and [response.json()] make of a
    request, in the order the code calls them. *)
Inductive reply : Type :=
| NoResponse        (* client.get raises *)
| ErrorStatus       (* raise_for_status raises *)
| NotJson           (* response.json() raises *)
| Body (data : value).

Record env : Type := Env {
  api_url : string;
  price_api_url : string;
  clock : nat -> Z;
  remote : nat -> request -> reply;
  (* Python's built-in float() on a str; None when it raises ValueError *)
  float_of_str : string -> option spec_float
}.

Record world : Type := World {
  price_cache : gmap string entry;
  ticks : nat;               (* clock readings taken so far *)
  sent : list request        (* requests issued so far, oldest first *)
}.

Definition set_cache (f : gmap string entry -> gmap string entry) (w : world) : world :=
  World (f (price_cache w)) (ticks w) (sent w).

(** The world after one more clock reading, and after one more request. *)
Definition tick (w : world) : world :=
  World (price_cache w) (S (ticks w)) (sent w).

Definition logged (req : request) (w : world) : world :=
  World (price_cache w) (ticks w) (sent w ++ [req]).

(** The freshness test of [_is_price_cached] on a reading [t] and an entry. *)
Definition fresh_at (t : Z) (cached_data : entry) : bool :=
  t - timestamp cached_data <? cache_duration.

(** A reply on which the request raises before any data is returned. *)
Definition failed (r : reply) : bool :=
  match r with Body _ => false | _ => true end.

(** A computation over a state [S] that may raise; the state reached when it
    raises is kept, as the mutations of a Python object are. *)
Definition M (S A : Type) : Type := S -> result A * S.

Definition ret {S A} (a : A) : M S A := fun s => (Ok a, s).

Definition raise {S A} (e : exn) : M S A := fun s => (Raise e, s).

Definition bind {S A B} (m : M S A) (k : A -> M S B) : M S B :=
  fun s => match m s with
           | (Ok a, s') => k a s'
           | (Raise e, s') => (Raise e, s')
           end.

Definition try_except {S A} (m : M S A) (handler : exn -> M S A) : M S A :=
  fun s => match m s with
           | (Ok a, s') => (Ok a, s')
           | (Raise e, s') => handler e s'
           end.

Definition of_result {S A} (r : result A) : M S A := fun s => (r, s).

Declare Scope py_scope.
Delimit Scope py_scope with py.
Notation "x <- m ;; k" := (bind m (fun x => k))
  (at level 100, m at next level, right associativity) : py_scope.
Notation "m ;;; k" := (bind m (fun _ => k))
  (at level 100, right associativity) : py_scope.
Open Scope py_scope.

(** ** [StrideClient] *)

Section StrideClient.
Context (E : env).

(** [datetime.now()]: one reading of the clock. *)
Definition now : M world Z :=
  fun w => (Ok (clock E (ticks w)), tick w).

(** [response = await self.client.get(url, params=params)],
    [response.raise_for_status()], [response.json()]. *)
Definition get_json (req : request) : M world value :=
  fun w =>
    let w' := logged req w in
    match remote E (length (sent w)) req with
    | NoResponse => (Raise RequestError, w')
    | ErrorStatus => (Raise HTTPStatusError, w')
    | NotJson => (Raise JSONDecodeError, w')
    | Body data => (Ok data, w')
    end.

Definition host_zone_request (chain_id : string) : request :=
  Request (api_url E +:+ "/Stride-Labs/stride/stakeibc/host_zone/" +:+ chain_id) [].

Definition get_host_zone (chain_id : string) : M world value :=
  try_except
    (data <- get_json (host_zone_request chain_id) ;;
     of_result (py_get data "host_zone" VNone))
    (fun _ => ret VNone).

(** [self._price_cache[chain]] *)
Definition cache_item (chain : string) : M world entry :=
  fun w => match price_cache w !! chain with
           | Some cached_data => (Ok cached_data, w)
           | None => (Raise (KeyError chain), w)
           end.

Definition _is_price_cached (chain : string) : M world bool :=
  fun w => match price_cache w !! chain with
           | None => (Ok false, w)
           | Some cached_data =>
               (t <- now ;;
                let age := t - timestamp cached_data in
                ret (age <? cache_duration)) w
           end.

(** Lines 145-150: the loop that serves fresh chains from the cache and
    collects the others. *)
Fixpoint split_cached (chains : list string) (prices : gmap string value)
    (chains_to_fetch : list string) : M world (gmap string value * list string) :=
  match chains with
  | [] => ret (prices, chains_to_fetch)
  | chain :: rest =>
      cached <- _is_price_cached chain ;;
      if cached : bool then
        cached_data <- cache_item chain ;;
        split_cached rest (<[chain := price cached_data]> prices) chains_to_fetch
      else
        split_cached rest prices (chains_to_fetch ++ [chain])
  end.

(** Lines 156-162: the identifiers to ask for, and the dict from identifier
    back to chain. *)
Fixpoint collect_ids (chains_to_fetch : list string) (coingecko_ids : list string)
    (chain_id_map : list (string * string)) : list string * list (string * string) :=
  match chains_to_fetch with
  | [] => (coingecko_ids, chain_id_map)
  | chain :: rest =>
      match dict_get COINGECKO_IDS chain with
      | Some coingecko_id =>
          if negb (String.eqb coingecko_id "") then
            collect_ids rest (coingecko_ids ++ [coingecko_id])
              (dict_set chain_id_map coingecko_id chain)
          else collect_ids rest coingecko_ids chain_id_map
      | None => collect_ids rest coingecko_ids chain_id_map
      end
  end.

Definition price_request (coingecko_ids : list string) : request :=
  Request (price_api_url E +:+ "/simple/price")
    [("ids", join "," coingecko_ids); ("vs_currencies", "usd")]%string.

(** The body of the method runs over its local dict [prices] and the world:
    what it has put in [prices] when an exception is raised is what the
    handler finds. *)
Definition frame : Type := gmap string value * world.

Definition lift {A} (m : M world A) : M frame A :=
  fun '(prices, w) => let '(r, w') := m w in (r, (prices, w')).

(** [prices[chain] = v] *)
Definition set_price (chain : string) (v : value) : M frame unit :=
  fun '(prices, w) => (Ok tt, (<[chain := v]> prices, w)).

(** [self._price_cache[chain] = item] *)
Definition set_cache_item (chain : string) (item : entry) : M world unit :=
  fun w => (Ok tt, set_cache (insert chain item) w).

Definition is_None (v : value) : bool :=
  match v with VNone => true | _ => false end.

(** Line 179: [data.get(coingecko_id, {}).get("usd")] *)
Definition usd_quote (data : value) (coingecko_id : string) : result value :=
  match py_get data coingecko_id (VDict []) with
  | Ok quote => py_get quote "usd" VNone
  | Raise e => Raise e
  end.

(** Lines 178-189: the loop over [chain_id_map.items()]. *)
Fixpoint store_prices (data : value) (t : Z) (items : list (string * string))
  : M frame unit :=
  match items with
  | [] => ret tt
  | (coingecko_id, chain) :: rest =>
      p <- of_result (usd_quote data coingecko_id) ;;
      (if negb (is_None p) then
         set_price chain p ;;;
         lift (set_cache_item chain (Entry p t))
       else set_price chain VNone) ;;;
      store_prices data t rest
  end.

(** Lines 155-191: the body of the [try]. *)
Definition fetch_uncached (chains_to_fetch : list string) : M frame unit :=
  let '(coingecko_ids, chain_id_map) := collect_ids chains_to_fetch [] [] in
  match coingecko_ids with
  | [] => ret tt
  | _ :: _ =>
      data <- lift (get_json (price_request coingecko_ids)) ;;
      t <- lift now ;;
      store_prices data t chain_id_map
  end.

(** Lines 196-198: the handler's loop. *)
Fixpoint fill_missing (chains_to_fetch : list string) : M frame unit :=
  match chains_to_fetch with
  | [] => ret tt
  | chain :: rest =>
      (fun '(prices, w) =>
         match prices !! chain with
         | None => set_price chain VNone (prices, w)
         | Some _ => (Ok tt, (prices, w))
         end) ;;;
      fill_missing rest
  end.

(** Run a body on the local [prices] and return the dict it leaves. *)
Definition returning_prices (prices : gmap string value) (body : M frame unit)
  : M world (gmap string value) :=
  fun w => match body (prices, w) with
           | (Ok _, (prices', w')) => (Ok prices', w')
           | (Raise e, (_, w')) => (Raise e, w')
           end.

Definition get_token_prices_batch (chains : list string)
  : M world (gmap string value) :=
  parts <- split_cached chains ∅ [] ;;
  let '(prices, chains_to_fetch) := parts in
  match chains_to_fetch with
  | [] => ret prices
  | _ :: _ =>
      returning_prices prices
        (try_except (fetch_uncached chains_to_fetch)
                    (fun _ => fill_missing chains_to_fetch))
  end.

(** [prices.get(chain)] on the returned dict: a missing key and a key bound
    to [None] both read as [None]. *)
Definition prices_get (prices : gmap string value) (chain : string) : value :=
  default VNone (prices !! chain).

Definition get_token_price (chain : string) : M world value :=
  cached <- _is_price_cached chain ;;
  if cached : bool then
    cached_data <- cache_item chain ;;
    ret (price cached_data)
  else
    prices <- get_token_prices_batch [chain] ;;
    ret (prices_get prices chain).

End StrideClient.

(** ** The fee calculation *)

(** [{"dailyFees": ..., "dailyRevenue": ...}] *)
Record fees : Type := Fees { dailyFees : spec_float; dailyRevenue : spec_float }.

Section FeeCalculator.
Context (E : env).

(** [float(v)] *)
Definition py_float (v : value) : result spec_float :=
  match v with
  | VNum x => Ok x
  | VBool b => Ok (Float.of_Z (if b then 1 else 0))
  | VStr s =>
      match float_of_str E s with
      | Some x => Ok x
      | None => Raise (ValueError ("could not convert string to float: '" +:+ s +:+ "'"))
      end
  | VNone | VList _ | VDict _ => Raise TypeError
  end.

(** [x * v] for a float [x] *)
Definition py_mul (x : spec_float) (v : value) : result spec_float :=
  match v with
  | VNum y => Ok (Float.mul x y)
  | VBool b => Ok (Float.mul x (Float.of_Z (if b then 1 else 0)))
  | VNone | VStr _ | VList _ | VDict _ => Raise TypeError
  end.

(** [v.startswith(p)]: only a str has the method. *)
Definition py_startswith (v : value) (p : string) : result bool :=
  match v with
  | VStr s => Ok (startswith s p)
  | _ => Raise AttributeError
  end.

(** Lines 233-241: the redemption rate and the staked amount of a host
    zone; the st-token denom is computed and not used. *)
Definition read_host_zone (host_zone : value) : result (spec_float * spec_float) :=
  rbind (py_get host_zone "redemption_rate" (VStr "1.0")) (fun rate =>
  rbind (py_float rate) (fun redemption_rate =>
  rbind (py_get host_zone "total_delegations" (VStr "0")) (fun staked_amount_str =>
  rbind (py_float staked_amount_str) (fun staked_amount =>
  rbind (py_get host_zone "host_denom" (VStr "")) (fun st_denom =>
  rbind (py_startswith st_denom "u") (fun _ =>
  Ok (staked_amount, redemption_rate))))))).

(** Lines 245-252. *)
Definition estimated_daily_rate : spec_float := Float.lit 5 10000.

Definition daily_rewards_native (staked_amount redemption_rate : spec_float)
  : spec_float :=
  let total_native_value := Float.mul staked_amount redemption_rate in
  Float.mul total_native_value estimated_daily_rate.

(** Lines 256-258: [if not token_price: token_price = 0.0] *)
Definition price_or_zero (token_price : value) : value :=
  if negb (truthy token_price) then VNum (S754_zero false) else token_price.

Definition calculate_daily_fee (chain : string) : M world fees :=
  try_except
    (match dict_get CHAIN_ID_MAP (lower chain) with
     | None => raise (ValueError ("Unknown chain: " +:+ chain))
     | Some chain_id =>
         if String.eqb chain_id "" then raise (ValueError ("Unknown chain: " +:+ chain))
         else
           host_zone <- get_host_zone E chain_id ;;
           if negb (truthy host_zone) then
             raise (ValueError ("Host zone not found for " +:+ chain_id))
           else
             zone <- of_result (read_host_zone host_zone) ;;
             let '(staked_amount, redemption_rate) := zone in
             let rewards := daily_rewards_native staked_amount redemption_rate in
             token_price <- get_token_price E chain ;;
             let token_price := price_or_zero token_price in
             let decimals := default 6 (dict_get TOKEN_DECIMALS chain) in
             let divisor := 10 ^ decimals in
             in_usd <- of_result (py_mul rewards token_price) ;;
             let daily_fees_usd := Float.div in_usd (Float.of_Z divisor) in
             let daily_revenue_usd := Float.mul daily_fees_usd (Float.lit 1 10) in
             ret (Fees daily_fees_usd daily_revenue_usd)
     end)
    (fun e => raise e).

(** ** [main.get_chain_fees]: GET /api/{chain}/stats/fees *)

Inductive response : Type :=
| FeeResponse (fees_data : fees)
| HTTPException (status_code : Z) (detail : string).

Definition get_chain_fees (chain : string) : world -> response * world :=
  fun w =>
    let chain := lower chain in
    let chain := if String.eqb chain "terra" then "terra2"%string else chain in
    match calculate_daily_fee chain w with
    | (Ok fees_data, w') => (FeeResponse fees_data, w')
    | (Raise e, w') =>
        if is_ValueError e then (HTTPException 404 (str_exn e), w')
        else (HTTPException 500 "Internal server error", w')
    end.

End FeeCalculator.

(** ** Invariants of the cache *)

(** Every chain in the cache has a price-feed identifier: entries are only
    written for chains found in [COINGECKO_IDS]. *)
Definition cache_wf (cache : gmap string entry) : Prop :=
  ∀ c, is_Some (cache !! c) → is_Some (dict_get COINGECKO_IDS c).

(** A price surfaced in [prices] is the price of the chain's cache entry. *)
Definition linked (prices : gmap string value) (cache : gmap string entry) : Prop :=
  ∀ c p, prices !! c = Some p → p ≠ VNone →
         ∃ e, cache !! c = Some e ∧ price e = p.

(** The client as [__init__] leaves it. *)
Definition init_world : world := World ∅ 0 [].

(** ** Scenarios: concrete remotes and clocks on which the model is run *)

Definition stride_api : string := "https://stride-api.polkachu.com".
Definition coingecko : string := "https://api.coingecko.com/api/v3".

(** [float()] on the strings of the scenarios. *)
Definition parse_decimal (s : string) : option spec_float :=
  if String.eqb s "1.5" then Some (Float.lit 15 10)
  else if String.eqb s "1.0" then Some (Float.of_Z 1)
  else if String.eqb s "1000000" then Some (Float.of_Z 1000000)
  else if String.eqb s "0" then Some (Float.of_Z 0)
  else None.

(** An environment whose gateway always answers [zone] and whose oracle
    always answers [oracle]. *)
Definition scenario (clock : nat -> Z) (zone oracle : reply) : env :=
  Env stride_api coingecko clock
    (fun _ req => if startswith (url req) stride_api then zone else oracle)
    parse_decimal.

Definition ten : value := VNum (Float.of_Z 10).

Definition cosmos_host_zone : value :=
  VDict [("chain_id", VStr "cosmoshub-4"); ("host_denom", VStr "uatom");
         ("redemption_rate", VStr "1.5");
         ("total_delegations", VStr "1000000")]%string.

Definition cosmos_zone : reply := Body (VDict [("host_zone", cosmos_host_zone)])%string.

Definition cosmos_quote : reply :=
  Body (VDict [("cosmos", VDict [("usd", ten)])])%string.

(** Everything answers, and the clock stands still. *)
Definition quoting_env : env := scenario (fun _ => 0) cosmos_zone cosmos_quote.

(** The oracle answers with data that holds no quote. *)
Definition unlisted_env : env := scenario (fun _ => 0) cosmos_zone (Body (VDict [])).

(** The gateway answers, the oracle cannot be reached. *)
Definition oracle_down_env : env := scenario (fun _ => 0) cosmos_zone NoResponse.

(** Nothing can be reached. *)
Definition offline_env : env := scenario (fun _ => 0) NoResponse NoResponse.

(** Nothing can be reached, and the first two clock readings fall on either
    side of the end of the cache window of an entry stamped 0. *)
Definition straddle_env : env :=
  scenario (fun k => match k with O => cache_duration - 1 | _ => cache_duration end)
    NoResponse NoResponse.

(** A cache that holds cosmos at price 10, stamped 0. *)
Definition cosmos_cached : world :=
  World {[ "cosmos"%string := Entry ten 0 ]} 0 [].

(** ** The remaining methods of [StrideClient] *)

(** [s.rstrip("/")] *)
Fixpoint rstrip_slash (s : string) : string :=
  match s with
  | EmptyString => EmptyString
  | String c rest =>
      match rstrip_slash rest with
      | EmptyString => if Ascii.eqb c (Ascii.ascii_of_nat 47) (* "/" *) then EmptyString else String c EmptyString
      | rest' => String c rest'
      end
  end.

(** [StrideClient.__init__]: the base URLs lose their trailing slashes and
    the cache starts empty.  [rpc_url] is stored and never read. *)
Definition StrideClient_init (api_url rpc_url price_api_url : string)
    (clock : nat -> Z) (remote : nat -> request -> reply)
    (float_of_str : string -> option spec_float) : env * world :=
  (Env (rstrip_slash api_url) (rstrip_slash price_api_url) clock remote float_of_str,
   World ∅ 0 []).

(** [len(v)] *)
Definition py_len (v : value) : result nat :=
  match v with
  | VStr s => Ok (String.length s)
  | VList l => Ok (length l)
  | VDict items => Ok (length items)
  | VNone | VBool _ | VNum _ => Raise TypeError
  end.

Section Gateway.
Context (E : env).

Definition host_zones_request : request :=
  Request (api_url E +:+ "/Stride-Labs/stride/stakeibc/host_zone") [].

(** [get_host_zones]: the handler logs and raises again. *)
Definition get_host_zones : M world value :=
  try_except
    (data <- get_json E host_zones_request ;;
     of_result (py_get data "host_zone" (VList [])))
    (fun e => raise e).

Definition supply_request (denom : string) : request :=
  Request (api_url E +:+ "/cosmos/bank/v1beta1/supply/by_denom")
    [("denom", denom)]%string.

(** [get_sttoken_supply]: the amount as a float, [None] on any failure. *)
Definition get_sttoken_supply (denom : string) : M world (option spec_float) :=
  try_except
    (data <- get_json E (supply_request denom) ;;
     coin <- of_result (py_get data "amount" (VDict [])) ;;
     amount <- of_result (py_get coin "amount" (VStr "0")) ;;
     x <- of_result (py_float E amount) ;;
     ret (Some x))
    (fun _ => ret None).

(** ** The other handlers of [main.py] *)

(** GET /health: status 200 with the number of host zones, or status 503
    with the text of the exception. *)
Inductive health : Type :=
| Healthy (host_zones_count : nat)
| Unhealthy (error : exn).

Definition health_check : M world health :=
  try_except
    (host_zones <- get_host_zones ;;
     n <- of_result (py_len host_zones) ;;
     ret (Healthy n))
    (fun e => ret (Unhealthy e)).

(** The list built in [get_all_fees]. *)
Definition supported_chains : list string :=
  [ "cosmos"; "celestia"; "osmosis"; "dydx"; "dymension"; "juno"; "stargaze";
    "terra2"; "evmos"; "injective"; "umee"; "comdex"; "haqq"; "band" ]%string.

(** One value of [results]: the fees of a chain, or
    [{"dailyFees": 0, "dailyRevenue": 0, "error": str(e)}] for the exception
    [e] its calculation raised. *)
Inductive chain_entry : Type :=
| FeesEntry (fees_data : fees)
| ErrorEntry (e : exn).

(** Lines 96-107 of [main.py]: the loop with its inner [try]. *)
Fixpoint fees_of_chains (chains : list string)
    (results : list (string * chain_entry)) : M world (list (string * chain_entry)) :=
  match chains with
  | [] => ret results
  | chain :: rest =>
      entry <- try_except
                 (fees_data <- calculate_daily_fee E chain ;; ret (FeesEntry fees_data))
                 (fun e => ret (ErrorEntry e)) ;;
      fees_of_chains rest (dict_set results chain entry)
  end.

(** GET /api/all/stats/fees *)
Inductive all_response : Type :=
| AllFees (chains : list (string * chain_entry))
| AllFailed (status_code : Z) (detail : string).

Definition get_all_fees : world -> all_response * world :=
  fun w =>
    match (_ <- get_token_prices_batch E supported_chains ;;
           fees_of_chains supported_chains []) w with
    | (Ok results, w') => (AllFees results, w')
    | (Raise _, w') => (AllFailed 500 "Internal server error", w')
    end.

End Gateway.

(** ** More invariants and scenarios *)

(** Every entry of the cache has a price that is not [None], for a chain
    that has a price-feed identifier. *)
Definition cache_ok (cache : gmap string entry) : Prop :=
  ∀ c e, cache !! c = Some e →
         price e ≠ VNone ∧ is_Some (dict_get COINGECKO_IDS c).

(** [after] is [before] with some entries written: every entry is the one
    it was, or a price that is not [None] for a chain that has a price-feed
    identifier. *)
Definition written_over (before after : gmap string entry) : Prop :=
  ∀ c, after !! c = before !! c
       ∨ ∃ p t id, p ≠ VNone ∧ dict_get COINGECKO_IDS c = Some id
                   ∧ after !! c = Some (Entry p t).

(** What a chain's calculation leaves in [results]. *)
Definition entry_of (r : result fees) : chain_entry :=
  match r with
  | Ok fees_data => FeesEntry fees_data
  | Raise e => ErrorEntry e
  end.

(** The sign of a float: set for negative numbers, negative zero and
    negative infinity, clear for nan. *)
Definition negative (x : spec_float) : bool :=
  match x with
  | S754_zero s | S754_infinity s | S754_finite s _ _ => s
  | S754_nan => false
  end.

(** The exception a reply without data raises in [get_json]. *)
Definition raised_by (r : reply) : exn :=
  match r with
  | NoResponse => RequestError
  | ErrorStatus => HTTPStatusError
  | _ => JSONDecodeError
  end.

(** The request [calculate_daily_fee] sends to the gateway for a chain. *)
Definition zone_request_of (E : env) (chain : string) : option request :=
  host_zone_request E <$> dict_get CHAIN_ID_MAP (lower chain).


(** The gateway lists two host zones. *)
Definition two_zones_env : env :=
  scenario (fun _ => 0)
    (Body (VDict [("host_zone", VList [cosmos_host_zone; cosmos_host_zone])]%string))
    cosmos_quote.

(** The oracle quotes every identifier at 10; the gateway cannot be reached. *)
Definition all_quotes : value :=
  VDict (map (fun kv => (kv.2, VDict [("usd", ten)]%string)) COINGECKO_IDS).

Definition gateway_down_env : env := scenario (fun _ => 0) NoResponse (Body all_quotes).

(** The oracle quotes every identifier; the gateway answers for every host
    zone but that of osmosis. *)
Definition osmosis_down_env : env :=
  Env stride_api coingecko (fun _ => 0)
    (fun _ req =>
       if String.eqb (url req)
            (stride_api +:+ "/Stride-Labs/stride/stakeibc/host_zone/osmosis-1")
       then NoResponse
       else if startswith (url req) stride_api then cosmos_zone
       else Body all_quotes)
    parse_decimal.

(** * Properties *)

(** ** Names and tables *)

Lemma lower_ascii_idem c : lower_ascii (lower_ascii c) = lower_ascii c.
Proof. destruct c as [[] [] [] [] [] [] [] []]; reflexivity. Qed.

Lemma lower_idem s : lower (lower s) = lower s.
Proof.
  induction s as [|c s IH]; simpl; [reflexivity|].
  now rewrite lower_ascii_idem, IH.
Qed.

(** A table all of whose keys are lower-case only answers for lower-case
    names. *)
Lemma dict_get_lower {V} (d : list (string * V)) k v :
  Forall (fun kv => lower kv.1 = kv.1) d →
  dict_get d k = Some v → lower k = k.
Proof.
  induction 1 as [|[k' v'] d Hk _ IH]; simpl; [discriminate|].
  destruct (String.eqb_spec k' k) as [->|_]; [intros _; exact Hk | exact IH].
Qed.

Lemma CHAIN_ID_MAP_lower : Forall (fun kv => lower kv.1 = kv.1) CHAIN_ID_MAP.
Proof. unfold CHAIN_ID_MAP. repeat constructor. Qed.

Lemma COINGECKO_IDS_lower : Forall (fun kv => lower kv.1 = kv.1) COINGECKO_IDS.
Proof. unfold COINGECKO_IDS. repeat constructor. Qed.

(** Every value of a table passes the truth test the code applies to it. *)
Lemma dict_get_Forall {V} (P : V → Prop) (d : list (string * V)) k v :
  Forall (fun kv => P kv.2) d → dict_get d k = Some v → P v.
Proof.
  induction 1 as [|[k' v'] d Hv _ IH]; simpl; [discriminate|].
  destruct (String.eqb k' k); [intros [= <-]; exact Hv | exact IH].
Qed.

Lemma CHAIN_ID_MAP_nonempty k v :
  dict_get CHAIN_ID_MAP k = Some v → String.eqb v "" = false.
Proof.
  apply (dict_get_Forall (fun v => String.eqb v "" = false)).
  unfold CHAIN_ID_MAP. repeat constructor.
Qed.

Lemma COINGECKO_IDS_nonempty k v :
  dict_get COINGECKO_IDS k = Some v → String.eqb v "" = false.
Proof.
  apply (dict_get_Forall (fun v => String.eqb v "" = false)).
  unfold COINGECKO_IDS. repeat constructor.
Qed.

(** ** Unknown chains *)

Lemma calculate_unknown E chain w :
  dict_get CHAIN_ID_MAP (lower chain) = None →
  calculate_daily_fee E chain w
  = (Raise (ValueError ("Unknown chain: " +:+ chain)), w).
Proof.
  intros H. unfold calculate_daily_fee, try_except. now rewrite H.
Qed.

(** C9. A chain name whose lower-case form has no entry in [CHAIN_ID_MAP]
    makes [calculate_daily_fee] raise the [ValueError] "Unknown chain", with
    the world untouched, and makes the single-chain endpoint answer with
    status 404 (a client error, not the 500 of the catch-all branch). *)
Theorem unknown_chain_not_found E chain w :
  dict_get CHAIN_ID_MAP (lower chain) = None →
  calculate_daily_fee E chain w
  = (Raise (ValueError ("Unknown chain: " +:+ chain)), w)
  ∧ get_chain_fees E chain w
    = (HTTPException 404 ("Unknown chain: " +:+ lower chain), w).
Proof.
  intros H. split; [now apply calculate_unknown|].
  unfold get_chain_fees.
  destruct (String.eqb_spec (lower chain) "terra") as [Heq|_].
  - rewrite Heq in H. discriminate H.
  - rewrite calculate_unknown by now rewrite lower_idem.
    reflexivity.
Qed.

Lemma unknown_chain_not_found_witness :
  get_chain_fees quoting_env "Bitcoin" init_world
  = (HTTPException 404 "Unknown chain: bitcoin", init_world).
Proof.
  exact (proj2 (unknown_chain_not_found quoting_env "Bitcoin" init_world eq_refl)).
Defined.

(** ** The price cache *)

Section PriceCache.
Context (E : env).

#[local] Arguments dict_get : simpl never.

Lemma is_price_cached_absent c w :
  price_cache w !! c = None → _is_price_cached E c w = (Ok false, w).
Proof. intros H. unfold _is_price_cached. now rewrite H. Qed.

Lemma is_price_cached_present c w e :
  price_cache w !! c = Some e →
  _is_price_cached E c w = (Ok (fresh_at (clock E (ticks w)) e), tick w).
Proof. intros H. unfold _is_price_cached. now rewrite H. Qed.

(** The first loop always completes; it only reads the cache and the clock.
    A chain it collects was absent, or stale at one of the readings; a chain
    it serves gets the price of its entry. *)
Lemma split_cached_spec chains : ∀ prices tf w,
  ∃ prices' extra w',
    split_cached E chains prices tf w = (Ok (prices', tf ++ extra), w')
    ∧ price_cache w' = price_cache w ∧ sent w' = sent w
    ∧ (ticks w ≤ ticks w')%nat
    ∧ (∀ c, c ∈ extra → c ∈ chains
         ∧ (price_cache w !! c = None
            ∨ ∃ e k, price_cache w !! c = Some e ∧ (ticks w ≤ k)%nat
                     ∧ fresh_at (clock E k) e = false))
    ∧ (∀ c, prices' !! c = prices !! c
         ∨ (c ∈ chains
            ∧ ∃ e, price_cache w !! c = Some e ∧ prices' !! c = Some (price e)))
    ∧ (∀ c, c ∈ chains →
         c ∈ extra
         ∨ ∃ e, price_cache w !! c = Some e ∧ prices' !! c = Some (price e)).
Proof.
  induction chains as [|chain rest IH]; intros prices tf w.
  - exists prices, [], w. rewrite app_nil_r. simpl.
    split_and!; auto; intros c Hc; inversion Hc.
  - simpl. unfold bind at 1.
    destruct (price_cache w !! chain) as [e|] eqn:Hlook.
    + rewrite (is_price_cached_present _ _ _ Hlook).
      destruct (fresh_at (clock E (ticks w)) e) eqn:Hfresh.
      * unfold bind at 1, cache_item. simpl. rewrite Hlook.
        destruct (IH (<[chain := price e]> prices) tf (tick w))
          as (prices' & extra & w' & Hrun & Hc & Hs & Ht & Hex & Hpr & Hall).
        exists prices', extra, w'. simpl in *.
        split_and!; auto; try lia.
        -- intros c Hin. destruct (Hex c Hin) as [Hmem Hwhy].
           split; [now apply list_elem_of_further|].
           destruct Hwhy as [?|(e' & k & ? & ? & ?)]; [now left|].
           right. exists e', k. repeat split; auto. lia.
        -- intros c. destruct (Hpr c) as [Heq|(Hmem & e' & ? & ?)].
           ++ destruct (decide (chain = c)) as [->|Hne].
              ** right. split; [apply list_elem_of_here|].
                 exists e. split; [assumption|].
                 now rewrite Heq, lookup_insert_eq.
              ** left. now rewrite Heq, lookup_insert_ne.
           ++ right. split; [now apply list_elem_of_further|]. now exists e'.
        -- intros c Hin. apply elem_of_cons in Hin as [->|Hin].
           ++ destruct (Hpr chain) as [Heq|(_ & e' & ? & ?)].
              ** right. exists e. split; [assumption|].
                 now rewrite Heq, lookup_insert_eq.
              ** right. now exists e'.
           ++ now apply Hall.
      * destruct (IH prices (tf ++ [chain]) (tick w))
          as (prices' & extra & w' & Hrun & Hc & Hs & Ht & Hex & Hpr & Hall).
        exists prices', (chain :: extra), w'. simpl in *.
        rewrite <- app_assoc in Hrun. simpl in Hrun.
        split_and!; auto; try lia.
        -- intros c Hin. apply elem_of_cons in Hin as [->|Hin].
           ++ split; [apply list_elem_of_here|].
              right. exists e, (ticks w). repeat split; auto.
           ++ destruct (Hex c Hin) as [Hmem Hwhy].
              split; [now apply list_elem_of_further|].
              destruct Hwhy as [?|(e' & k & ? & ? & ?)]; [now left|].
              right. exists e', k. repeat split; auto. lia.
        -- intros c. destruct (Hpr c) as [Heq|(Hmem & e' & ? & ?)]; [now left|].
           right. split; [now apply list_elem_of_further|]. now exists e'.
        -- intros c Hin. apply elem_of_cons in Hin as [->|Hin].
           ++ left. apply list_elem_of_here.
           ++ destruct (Hall c Hin) as [?|?]; [left|now right].
              now apply list_elem_of_further.
    + rewrite (is_price_cached_absent _ _ Hlook).
      destruct (IH prices (tf ++ [chain]) w)
        as (prices' & extra & w' & Hrun & Hc & Hs & Ht & Hex & Hpr & Hall).
      exists prices', (chain :: extra), w'.
      rewrite <- app_assoc in Hrun. simpl in Hrun.
      split_and!; auto.
      * intros c Hin. apply elem_of_cons in Hin as [->|Hin].
        -- split; [apply list_elem_of_here|]. now left.
        -- destruct (Hex c Hin) as [Hmem Hwhy].
           split; [now apply list_elem_of_further|]. exact Hwhy.
      * intros c. destruct (Hpr c) as [Heq|(Hmem & e' & ? & ?)]; [now left|].
        right. split; [now apply list_elem_of_further|]. now exists e'.
      * intros c Hin. apply elem_of_cons in Hin as [->|Hin].
        -- left. apply list_elem_of_here.
        -- destruct (Hall c Hin) as [?|?]; [left|now right].
           now apply list_elem_of_further.
Qed.

Lemma dict_set_key {V} (d : list (string * V)) k v kv :
  kv ∈ dict_set d k v → kv ∈ d ∨ kv = (k, v) ∨ (kv.1 = k ∧ kv.2 = v).
Proof.
  induction d as [|[k' v'] d IH]; simpl.
  - intros ->%list_elem_of_singleton. now right; left.
  - destruct (String.eqb_spec k' k) as [->|Hne].
    + intros [->|Hin]%elem_of_cons; [now right; right|].
      left. now apply list_elem_of_further.
    + intros [->|Hin]%elem_of_cons; [left; apply list_elem_of_here|].
      destruct (IH Hin) as [?|?]; [left|now right].
      now apply list_elem_of_further.
Qed.

(** The identifiers asked for are those of the collected chains, in order,
    duplicates included. *)
Lemma collect_ids_fst tf : ∀ ids cmap,
  (collect_ids tf ids cmap).1 = ids ++ omap (dict_get COINGECKO_IDS) tf.
Proof.
  induction tf as [|chain rest IH]; intros ids cmap; simpl.
  - now rewrite app_nil_r.
  - destruct (dict_get COINGECKO_IDS chain) as [id|] eqn:Hid; simpl; [|apply IH].
    rewrite (COINGECKO_IDS_nonempty _ _ Hid). simpl.
    now rewrite IH, <- app_assoc.
Qed.

(** Every pair of [chain_id_map] relates a collected chain to its own
    identifier. *)
Lemma collect_ids_snd tf : ∀ ids cmap id c,
  (id, c) ∈ (collect_ids tf ids cmap).2 →
  (id, c) ∈ cmap ∨ (c ∈ tf ∧ dict_get COINGECKO_IDS c = Some id).
Proof.
  induction tf as [|chain rest IH]; intros ids cmap id c; simpl; [now left|].
  destruct (dict_get COINGECKO_IDS chain) as [id'|] eqn:Hid.
  - rewrite (COINGECKO_IDS_nonempty _ _ Hid). simpl. intros Hin.
    destruct (IH _ _ _ _ Hin) as [Hset|[Hmem Hc]].
    + destruct (dict_set_key _ _ _ _ Hset) as [?|[[= -> ->]|[Hk Hv]]];
        [now left| |]; right.
      * split; [apply list_elem_of_here|assumption].
      * simpl in Hk, Hv. subst. split; [apply list_elem_of_here|assumption].
    + right. split; [now apply list_elem_of_further|assumption].
  - intros Hin. destruct (IH _ _ _ _ Hin) as [?|[Hmem Hc]]; [now left|].
    right. split; [now apply list_elem_of_further|assumption].
Qed.

(** The storing loop: it sends nothing and reads no clock; a cache entry it
    writes is the non-[None] quote of the chain's identifier, stamped [t]. *)
Lemma store_prices_spec data t items : ∀ prices w,
  ∃ r prices' w',
    store_prices data t items (prices, w) = (r, (prices', w'))
    ∧ sent w' = sent w ∧ ticks w' = ticks w
    ∧ (∀ c, price_cache w' !! c = price_cache w !! c
         ∨ ∃ id p, (id, c) ∈ items ∧ usd_quote data id = Ok p ∧ p ≠ VNone
                   ∧ price_cache w' !! c = Some (Entry p t))
    ∧ (∀ c, prices' !! c = prices !! c ∨ ∃ id, (id, c) ∈ items)
    ∧ (linked prices (price_cache w) → linked prices' (price_cache w')).
Proof.
  induction items as [|[id chain] rest IH]; intros prices w.
  - exists (Ok tt), prices, w. simpl. split_and!; auto.
  - simpl. unfold bind at 1, of_result at 1.
    destruct (usd_quote data id) as [p|e] eqn:Hq.
    + set (fr := (if negb (is_None p)
                  then (set_price chain p;;; lift (set_cache_item chain (Entry p t)))
                  else set_price chain VNone) (prices, w)).
      assert (∃ prices1 w1, fr = (Ok tt, (prices1, w1))
                ∧ sent w1 = sent w ∧ ticks w1 = ticks w
                ∧ (∀ c, price_cache w1 !! c = price_cache w !! c
                     ∨ (c = chain ∧ p ≠ VNone
                        ∧ price_cache w1 !! c = Some (Entry p t)))
                ∧ (∀ c, prices1 !! c = prices !! c ∨ c = chain)
                ∧ (linked prices (price_cache w) → linked prices1 (price_cache w1)))
        as (prices1 & w1 & Hfr & Hs1 & Ht1 & Hc1 & Hp1 & Hl1).
      { subst fr. destruct (is_None p) eqn:Hnone; simpl.
        - exists (<[chain := VNone]> prices), w. split_and!; auto.
          + intros c. destruct (decide (chain = c)) as [->|Hne]; [now right|].
            left. now rewrite lookup_insert_ne.
          + intros Hl c q Hlook Hq0.
            destruct (decide (chain = c)) as [->|Hne].
            * rewrite lookup_insert_eq in Hlook. congruence.
            * rewrite lookup_insert_ne in Hlook by assumption. eauto.
        - exists (<[chain := p]> prices), (set_cache (insert chain (Entry p t)) w).
          assert (p ≠ VNone) by (intros ->; discriminate).
          split_and!; auto.
          + intros c. simpl. destruct (decide (chain = c)) as [->|Hne].
            * right. split_and!; auto. apply lookup_insert_eq.
            * left. now rewrite lookup_insert_ne.
          + intros c. destruct (decide (chain = c)) as [->|Hne]; [now right|].
            left. now rewrite lookup_insert_ne.
          + intros Hl c q Hlook Hq0. simpl.
            destruct (decide (chain = c)) as [->|Hne].
            * rewrite lookup_insert_eq in Hlook. injection Hlook as <-.
              exists (Entry p t). split; [apply lookup_insert_eq|reflexivity].
            * rewrite lookup_insert_ne in Hlook by assumption.
              rewrite lookup_insert_ne by assumption. eauto. }
      unfold bind at 1. fold fr. rewrite Hfr.
      destruct (IH prices1 w1) as (r & prices' & w' & Hrun & Hs & Ht & Hc & Hp & Hl).
      exists r, prices', w'. split_and!; auto; try congruence.
      * intros c. destruct (Hc c) as [Heq|(id' & q & Hin & ? & ? & ?)].
        -- destruct (Hc1 c) as [Heq1|(-> & ? & Hnew)].
           ++ left. congruence.
           ++ right. exists id, p. split_and!; auto; [apply list_elem_of_here|congruence].
        -- right. exists id', q. split_and!; auto. now apply list_elem_of_further.
      * intros c. destruct (Hp c) as [Heq|[id' Hin]].
        -- destruct (Hp1 c) as [Heq1| ->].
           ++ left. congruence.
           ++ right. exists id. apply list_elem_of_here.
        -- right. exists id'. now apply list_elem_of_further.
    + exists (Raise e), prices, w. split_and!; auto.
Qed.

(** The handler's loop binds every collected chain that has no key yet to
    [None], and nothing else. *)
Lemma fill_missing_spec tf : ∀ prices w,
  ∃ prices',
    fill_missing tf (prices, w) = (Ok tt, (prices', w))
    ∧ (∀ c v, prices !! c = Some v → prices' !! c = Some v)
    ∧ (∀ c, prices !! c = None → c ∈ tf → prices' !! c = Some VNone)
    ∧ (∀ c, prices !! c = None → c ∉ tf → prices' !! c = None).
Proof.
  induction tf as [|chain rest IH]; intros prices w.
  - exists prices. simpl. split_and!; auto. intros c _ Hin. inversion Hin.
  - simpl. unfold bind at 1.
    destruct (prices !! chain) as [v0|] eqn:Hlook.
    + destruct (IH prices w) as (prices' & Hrun & Hsome & Hin & Hout).
      exists prices'. split_and!; auto.
      * intros c Hnone [->|Hmem]%elem_of_cons; [congruence|auto].
      * intros c Hnone Hnot. apply Hout; [assumption|].
        intros ?. apply Hnot. now apply list_elem_of_further.
    + simpl.
      destruct (IH (<[chain := VNone]> prices) w) as (prices' & Hrun & Hsome & Hin & Hout).
      exists prices'. split_and!; auto.
      * intros c v Hc. apply Hsome.
        rewrite lookup_insert_ne; [assumption|congruence].
      * intros c Hnone [->|Hmem]%elem_of_cons.
        -- apply Hsome, lookup_insert_eq.
        -- destruct (decide (chain = c)) as [->|Hne].
           ++ apply Hsome, lookup_insert_eq.
           ++ apply Hin; [now rewrite lookup_insert_ne|assumption].
      * intros c Hnone Hnot. apply Hout.
        -- rewrite lookup_insert_ne; [assumption|].
           intros ->. apply Hnot, list_elem_of_here.
        -- intros ?. apply Hnot. now apply list_elem_of_further.
Qed.

Lemma fetch_uncached_run tf prices w :
  fetch_uncached E tf (prices, w) =
  let ids := omap (dict_get COINGECKO_IDS) tf in
  let req := price_request E ids in
  match ids with
  | [] => (Ok tt, (prices, w))
  | _ :: _ =>
      match remote E (length (sent w)) req with
      | NoResponse => (Raise RequestError, (prices, logged req w))
      | ErrorStatus => (Raise HTTPStatusError, (prices, logged req w))
      | NotJson => (Raise JSONDecodeError, (prices, logged req w))
      | Body data =>
          store_prices data (clock E (ticks w)) (collect_ids tf [] []).2
            (prices, tick (logged req w))
      end
  end.
Proof.
  unfold fetch_uncached.
  pose proof (collect_ids_fst tf [] []) as Hfst. simpl in Hfst.
  destruct (collect_ids tf [] []) as [ids cmap]. simpl in Hfst. subst ids.
  cbv zeta. destruct (omap (dict_get COINGECKO_IDS) tf) as [|i ids]; [reflexivity|].
  unfold bind at 1, lift at 1, get_json.
  destruct (remote E (length (sent w)) (price_request E (i :: ids)));
    reflexivity.
Qed.

Lemma batch_run chains w prices0 tf w0 :
  split_cached E chains ∅ [] w = (Ok (prices0, tf), w0) →
  get_token_prices_batch E chains w
  = returning_prices prices0
      (try_except (fetch_uncached E tf) (fun _ => fill_missing tf)) w0.
Proof.
  intros H. unfold get_token_prices_batch, bind. rewrite H.
  destruct tf; reflexivity.
Qed.

(** The fetch stage, started on the local [prices0] in the world [w0] with
    the collected chains [tf]: it returns a dict and never raises. *)
Lemma fetch_stage_spec tf prices0 w0 :
  let ids := omap (dict_get COINGECKO_IDS) tf in
  let req := price_request E ids in
  let rep := remote E (length (sent w0)) req in
  ∃ prices w',
    returning_prices prices0
      (try_except (fetch_uncached E tf) (fun _ => fill_missing tf)) w0
    = (Ok prices, w')
    ∧ (ids = [] → prices = prices0 ∧ w' = w0)
    ∧ (ids ≠ [] → sent w' = sent w0 ++ [req])
    ∧ (ticks w0 ≤ ticks w')%nat
    ∧ (∀ c, price_cache w' !! c = price_cache w0 !! c
         ∨ ∃ data id p,
             ids ≠ [] ∧ rep = Body data ∧ c ∈ tf
             ∧ dict_get COINGECKO_IDS c = Some id
             ∧ usd_quote data id = Ok p ∧ p ≠ VNone
             ∧ price_cache w' !! c = Some (Entry p (clock E (ticks w0))))
    ∧ (ids ≠ [] → failed rep = true →
       ∀ c, c ∈ tf → prices0 !! c = None → prices !! c = Some VNone)
    ∧ (∀ c, prices !! c = prices0 !! c ∨ c ∈ tf)
    ∧ (linked prices0 (price_cache w0) → linked prices (price_cache w')).
Proof.
  cbv zeta.
  unfold returning_prices, try_except. rewrite fetch_uncached_run. cbv zeta.
  destruct (omap (dict_get COINGECKO_IDS) tf) as [|i ids'].
  { exists prices0, w0. split_and!; auto; try congruence. }
  generalize (price_request E (i :: ids')). intros req.
  generalize (remote E (length (sent w0)) req). intros rep.
  assert (Hfail : ∀ e, failed rep = true →
    ∃ prices w',
      match
        match (Raise e : result unit, (prices0, logged req w0)) with
        | (Ok a, s') => (Ok a, s')
        | (Raise e, s') => fill_missing tf s'
        end
      with
      | (Ok _, (prices', w')) => (Ok prices', w')
      | (Raise e, (_, w')) => (Raise e, w')
      end = (Ok prices, w')
      ∧ (i :: ids' = [] → prices = prices0 ∧ w' = w0)
      ∧ (i :: ids' ≠ [] → sent w' = sent w0 ++ [req])
      ∧ (ticks w0 ≤ ticks w')%nat
      ∧ (∀ c, price_cache w' !! c = price_cache w0 !! c
           ∨ ∃ data id p,
               i :: ids' ≠ [] ∧ rep = Body data ∧ c ∈ tf
               ∧ dict_get COINGECKO_IDS c = Some id
               ∧ usd_quote data id = Ok p ∧ p ≠ VNone
               ∧ price_cache w' !! c = Some (Entry p (clock E (ticks w0))))
      ∧ (i :: ids' ≠ [] → failed rep = true →
         ∀ c, c ∈ tf → prices0 !! c = None → prices !! c = Some VNone)
      ∧ (∀ c, prices !! c = prices0 !! c ∨ c ∈ tf)
      ∧ (linked prices0 (price_cache w0) → linked prices (price_cache w'))).
  { intros e _.
    destruct (fill_missing_spec tf prices0 (logged req w0))
      as (prices' & Hrun & Hsome & Hin & Hout).
    exists prices', (logged req w0). rewrite Hrun.
    split_and!; auto; try discriminate.
    - intros c. destruct (prices0 !! c) as [v|] eqn:Hc.
      + left. now apply Hsome.
      + destruct (decide (c ∈ tf)); [now right|]. left. now apply Hout.
    - intros Hl c p Hc Hp. simpl.
      destruct (prices0 !! c) as [v|] eqn:Hc0.
      + rewrite (Hsome _ _ Hc0) in Hc. injection Hc as ->. now apply Hl.
      + destruct (decide (c ∈ tf)).
        * rewrite (Hin _ Hc0) in Hc by assumption. congruence.
        * rewrite (Hout _ Hc0) in Hc by assumption. discriminate. }
  destruct rep as [| | |data]; try (apply (Hfail RequestError); reflexivity).
  clear Hfail.
  destruct (store_prices_spec data (clock E (ticks w0)) (collect_ids tf [] []).2
              prices0 (tick (logged req w0)))
    as (r & prices1 & w1 & Hrun & Hs & Ht & Hc & Hp & Hl).
  rewrite Hrun. simpl in Hs, Ht, Hc, Hl.
  assert (Hcache : ∀ c, price_cache w1 !! c = price_cache w0 !! c
           ∨ ∃ data0 id p,
               i :: ids' ≠ [] ∧ Body data = Body data0 ∧ c ∈ tf
               ∧ dict_get COINGECKO_IDS c = Some id
               ∧ usd_quote data0 id = Ok p ∧ p ≠ VNone
               ∧ price_cache w1 !! c = Some (Entry p (clock E (ticks w0)))).
  { intros c. destruct (Hc c) as [?|(id & p & Hin & Hq & Hp0 & Hnew)]; [now left|].
    right. exists data, id, p.
    destruct (collect_ids_snd _ _ _ _ _ Hin) as [Hnil|[Hmem Hid]];
      [inversion Hnil|].
    split_and!; auto. }
  assert (Hkeys : ∀ c, prices1 !! c = prices0 !! c ∨ c ∈ tf).
  { intros c. destruct (Hp c) as [?|[id Hin]]; [now left|]. right.
    destruct (collect_ids_snd _ _ _ _ _ Hin) as [Hnil|[Hmem _]];
      [inversion Hnil|assumption]. }
  destruct r as [[]|e].
  - exists prices1, w1. split_and!; auto; try discriminate. lia.
  - destruct (fill_missing_spec tf prices1 w1)
      as (prices' & Hrun' & Hsome & Hin & Hout).
    exists prices', w1. rewrite Hrun'.
    split_and!; auto; try discriminate.
    + lia.
    + intros c. destruct (prices1 !! c) as [v|] eqn:Hc1.
      * rewrite (Hsome _ _ Hc1).
        destruct (Hkeys c) as [Heq|?]; [left; congruence|now right].
      * destruct (decide (c ∈ tf)); [now right|]. left.
        rewrite (Hout _ Hc1) by assumption.
        destruct (Hkeys c) as [Heq|?]; [congruence|contradiction].
    + intros Hl0 c p Hcp Hp0.
      destruct (prices1 !! c) as [v|] eqn:Hc1.
      * rewrite (Hsome _ _ Hc1) in Hcp. injection Hcp as ->.
        now apply (Hl Hl0).
      * destruct (decide (c ∈ tf)).
        -- rewrite (Hin _ Hc1) in Hcp by assumption. congruence.
        -- rewrite (Hout _ Hc1) in Hcp by assumption. discriminate.
Qed.

(** What a call amounts to: the first loop, then the fetch stage. *)
Lemma batch_spec chains w :
  ∃ prices0 tf w0 prices w',
    split_cached E chains ∅ [] w = (Ok (prices0, tf), w0)
    ∧ get_token_prices_batch E chains w = (Ok prices, w')
    ∧ returning_prices prices0
        (try_except (fetch_uncached E tf) (fun _ => fill_missing tf)) w0
      = (Ok prices, w').
Proof.
  destruct (split_cached_spec chains ∅ [] w)
    as (prices0 & tf & w0 & Hsplit & _).
  destruct (fetch_stage_spec tf prices0 w0) as (prices & w' & Hrun & _).
  exists prices0, tf, w0, prices, w'. simpl in Hsplit.
  split_and!; auto. now rewrite (batch_run _ _ _ _ _ Hsplit).
Qed.

Lemma sent_grows_by_one {A} (l : list A) x y : l ++ [x] = l ++ [y] → x = y.
Proof. intros H. apply app_inj_tail in H. tauto. Qed.

Lemma sent_not_grown {A} (l : list A) x : l ≠ l ++ [x].
Proof.
  intros H. apply (f_equal length) in H. rewrite length_app in H.
  simpl in H. lia.
Qed.

End PriceCache.

(** C1 (amended). [get_token_prices_batch] returns a dict for every list of
    chains, every cache, every clock and every behaviour of the oracle: it
    never raises.  When the one request it sent got no data back (no
    response, an error status, a body that is not JSON), the cache is exactly
    what it was, and every collected chain that was not also served from the
    cache in this call reads as [None] in the returned dict. *)
Theorem batch_never_raises E chains w :
  ∃ prices0 to_fetch w0 prices w',
    split_cached E chains ∅ [] w = (Ok (prices0, to_fetch), w0)
    ∧ get_token_prices_batch E chains w = (Ok prices, w')
    ∧ ∀ req,
        sent w' = sent w ++ [req] →
        failed (remote E (length (sent w)) req) = true →
        price_cache w' = price_cache w
        ∧ ∀ c, c ∈ to_fetch → prices0 !! c = None →
               prices_get prices c = VNone.
Proof.
  destruct (split_cached_spec E chains ∅ [] w)
    as (prices0 & tf & w0 & Hsplit & Hc0 & Hs0 & _).
  destruct (fetch_stage_spec E tf prices0 w0)
    as (prices & w' & Hrun & Hnil & Hsent & _ & Hcache & Hfail & _).
  simpl in Hsplit. exists prices0, tf, w0, prices, w'.
  split_and!; auto; [now rewrite (batch_run _ _ _ _ _ _ Hsplit)|].
  intros req Hreq Hfailed.
  destruct (omap (dict_get COINGECKO_IDS) tf) as [|i ids] eqn:Hids.
  { destruct Hnil as [_ ->]; [reflexivity|]. rewrite Hs0 in Hreq.
    now apply sent_not_grown in Hreq. }
  rewrite Hsent, Hs0 in Hreq by discriminate.
  apply sent_grows_by_one in Hreq. subst req. rewrite Hs0 in *.
  split.
  - rewrite <- Hc0. apply map_eq. intros c.
    destruct (Hcache c) as [?|(data & ? & ? & _ & Hbody & _)]; [assumption|].
    rewrite Hbody in Hfailed. discriminate.
  - intros c Hin Hnone. unfold prices_get.
    rewrite (Hfail ltac:(discriminate) Hfailed c Hin Hnone). reflexivity.
Qed.

(** C4. A call sends at most one request.  When some collected chain has a
    price-feed identifier it sends exactly one, to the oracle's simple-price
    path, whose [ids] are the identifiers of all collected chains joined by
    commas and whose target currency is usd; otherwise it sends none. *)
Theorem batch_sends_one_request E chains w :
  ∃ prices0 to_fetch w0 prices w',
    split_cached E chains ∅ [] w = (Ok (prices0, to_fetch), w0)
    ∧ get_token_prices_batch E chains w = (Ok prices, w')
    ∧ ((∃ c id, c ∈ to_fetch ∧ dict_get COINGECKO_IDS c = Some id) →
       sent w' = sent w ++
         [Request (price_api_url E +:+ "/simple/price")
            [("ids", join "," (omap (dict_get COINGECKO_IDS) to_fetch));
             ("vs_currencies", "usd")]%string])
    ∧ ((∀ c, c ∈ to_fetch → dict_get COINGECKO_IDS c = None) →
       sent w' = sent w)
    ∧ (length (sent w') ≤ length (sent w) + 1)%nat.
Proof.
  destruct (split_cached_spec E chains ∅ [] w)
    as (prices0 & tf & w0 & Hsplit & Hc0 & Hs0 & _).
  destruct (fetch_stage_spec E tf prices0 w0)
    as (prices & w' & Hrun & Hnil & Hsent & _).
  simpl in Hsplit. exists prices0, tf, w0, prices, w'.
  split_and!; auto; [now rewrite (batch_run _ _ _ _ _ _ Hsplit)| | |].
  - intros (c & id & Hin & Hid).
    rewrite Hsent, Hs0; [reflexivity|].
    intros Hempty.
    assert (id ∈ omap (dict_get COINGECKO_IDS) tf) as Hmem
      by (apply list_elem_of_omap; eauto).
    rewrite Hempty in Hmem. inversion Hmem.
  - intros Hnone.
    destruct Hnil as [_ ->]; [|assumption].
    destruct (omap (dict_get COINGECKO_IDS) tf) as [|i ids] eqn:Hids;
      [reflexivity|].
    assert (i ∈ omap (dict_get COINGECKO_IDS) tf) as Hmem
      by (rewrite Hids; apply list_elem_of_here).
    apply list_elem_of_omap in Hmem as (c & Hin & Hid).
    rewrite (Hnone c Hin) in Hid. discriminate.
  - destruct (omap (dict_get COINGECKO_IDS) tf) as [|i ids] eqn:Hids.
    + destruct Hnil as [_ ->]; [reflexivity|]. rewrite Hs0. lia.
    + rewrite Hsent by discriminate. rewrite length_app, Hs0. simpl. lia.
Qed.

(** C5. For every chain [c], a call changes the cache entry of [c] only if
    it sent a request, the reply carried data, [c] has a price-feed
    identifier and the data holds a non-[None] usd quote for it; the new
    entry is that quote, stamped with a clock reading of the call.  A reply
    without data leaves the entry of [c] as it was (neither removed nor
    restamped), and so does a reply whose data has no quote for [c]. *)
Theorem cache_written_only_for_quoted_chain E chains w c :
  ∃ prices w',
    get_token_prices_batch E chains w = (Ok prices, w')
    ∧ (price_cache w' !! c ≠ price_cache w !! c →
       ∃ req data id p k,
         c ∈ chains
         ∧ sent w' = sent w ++ [req]
         ∧ remote E (length (sent w)) req = Body data
         ∧ dict_get COINGECKO_IDS c = Some id
         ∧ usd_quote data id = Ok p ∧ p ≠ VNone
         ∧ (ticks w ≤ k)%nat
         ∧ price_cache w' !! c = Some (Entry p (clock E k)))
    ∧ (∀ req, sent w' = sent w ++ [req] →
              failed (remote E (length (sent w)) req) = true →
              price_cache w' !! c = price_cache w !! c)
    ∧ (∀ req data id,
         sent w' = sent w ++ [req] →
         remote E (length (sent w)) req = Body data →
         dict_get COINGECKO_IDS c = Some id →
         (∀ p, usd_quote data id = Ok p → p = VNone) →
         price_cache w' !! c = price_cache w !! c).
Proof.
  destruct (split_cached_spec E chains ∅ [] w)
    as (prices0 & tf & w0 & Hsplit & Hc0 & Hs0 & Ht0 & Hex & _).
  destruct (fetch_stage_spec E tf prices0 w0)
    as (prices & w' & Hrun & Hnil & Hsent & _ & Hcache & _).
  simpl in Hsplit. exists prices, w'.
  rewrite Hs0, Hc0 in *.
  split_and!; [now rewrite (batch_run _ _ _ _ _ _ Hsplit)| | |].
  - intros Hchanged.
    destruct (Hcache c) as [?|(data & id & p & Hne & Hbody & Hin & Hid & Hq & Hp & Hnew)];
      [contradiction|].
    eexists _, data, id, p, (ticks w0).
    split_and!; eauto. now apply Hex.
  - intros req Hreq Hfailed.
    destruct (Hcache c) as [?|(data & id & p & Hne & Hbody & _)]; [assumption|].
    rewrite (Hsent Hne) in Hreq. apply sent_grows_by_one in Hreq. subst req.
    rewrite Hbody in Hfailed. discriminate.
  - intros req data id Hreq Hbody Hid Hquote.
    destruct (Hcache c) as [?|(data' & id' & p & Hne & Hbody' & _ & Hid' & Hq & Hp & _)];
      [assumption|].
    rewrite (Hsent Hne) in Hreq. apply sent_grows_by_one in Hreq. subst req.
    rewrite Hbody in Hbody'. injection Hbody' as <-.
    rewrite Hid in Hid'. injection Hid' as <-.
    now apply Hquote in Hq.
Qed.

(** ** Two calls in a row *)

Section Repeat.
Context (E : env).

(** What one call establishes about its result and the cache it leaves. *)
Lemma batch_result_facts chains w prices w' :
  get_token_prices_batch E chains w = (Ok prices, w') →
  linked prices (price_cache w')
  ∧ (∀ c, is_Some (prices !! c) → c ∈ chains)
  ∧ (cache_wf (price_cache w) → cache_wf (price_cache w')).
Proof.
  intros Hbatch.
  destruct (split_cached_spec E chains ∅ [] w)
    as (prices0 & tf & w0 & Hsplit & Hc0 & Hs0 & Ht0 & Hex & Hpr & Hall).
  destruct (fetch_stage_spec E tf prices0 w0)
    as (prices' & w'' & Hrun & Hnil & Hsent & _ & Hcache & _ & Hkeys & Hlink).
  simpl in Hsplit. rewrite (batch_run _ _ _ _ _ _ Hsplit), Hrun in Hbatch.
  injection Hbatch as -> ->. rewrite Hc0 in *.
  split_and!.
  - apply Hlink. intros c p Hc Hp.
    destruct (Hpr c) as [Heq|(_ & e & He & Heq)].
    + rewrite Heq, lookup_empty in Hc. discriminate.
    + exists e. split; [assumption|congruence].
  - intros c [v Hv].
    destruct (Hkeys c) as [Heq|Hin]; [|now apply Hex].
    destruct (Hpr c) as [Heq0|[Hin _]]; [|assumption].
    rewrite Hv, Heq0, lookup_empty in Heq. discriminate.
  - intros Hwf c Hsome.
    destruct (Hcache c) as [Heq|(data & id & p & _ & _ & _ & Hid & _)].
    + apply Hwf. now rewrite <- Heq.
    + now exists id.
Qed.

Lemma omap_none {A B} (f : A → option B) (l : list A) :
  (∀ x, x ∈ l → f x = None) → omap f l = [].
Proof.
  intros Hnone. destruct (omap f l) as [|y ys] eqn:Hl; [reflexivity|].
  assert (y ∈ omap f l) as Hmem by (rewrite Hl; apply list_elem_of_here).
  apply list_elem_of_omap in Hmem as (x & Hin & Hx).
  rewrite (Hnone x Hin) in Hx. discriminate.
Qed.

End Repeat.

(** C3 (amended). Two calls in a row for the same chains, from a cache that
    only holds chains with a price-feed identifier.  If the first call
    surfaced a price for every requested chain that has such an identifier,
    and every clock reading from the end of the first call on is inside the
    freshness window of the entries of the requested chains, then the second
    call sends no request, leaves the cache as it is, and reads the same
    price, or [None], for every chain. *)
Theorem second_batch_served_from_cache E chains w prices1 w1 :
  cache_wf (price_cache w) →
  get_token_prices_batch E chains w = (Ok prices1, w1) →
  (∀ c, c ∈ chains → is_Some (dict_get COINGECKO_IDS c) →
        prices_get prices1 c ≠ VNone) →
  (∀ c e k, c ∈ chains → price_cache w1 !! c = Some e → (ticks w1 ≤ k)%nat →
            fresh_at (clock E k) e = true) →
  ∃ prices2 w2,
    get_token_prices_batch E chains w1 = (Ok prices2, w2)
    ∧ sent w2 = sent w1
    ∧ price_cache w2 = price_cache w1
    ∧ ∀ c, prices_get prices2 c = prices_get prices1 c.
Proof.
  intros Hwf Hfirst Hpriced Hwindow.
  destruct (batch_result_facts E _ _ _ _ Hfirst) as (Hlink & Hkeys & Hwf1).
  specialize (Hwf1 Hwf).
  destruct (split_cached_spec E chains ∅ [] w1)
    as (prices0 & tf & w0 & Hsplit & Hc0 & Hs0 & Ht0 & Hex & Hpr & Hall).
  destruct (fetch_stage_spec E tf prices0 w0)
    as (prices2 & w2 & Hrun & Hnil & _).
  simpl in Hsplit.
  (* a chain judged stale or absent by the second call has no entry *)
  assert (Habsent : ∀ c, c ∈ tf → price_cache w1 !! c = None).
  { intros c Hin. destruct (Hex c Hin) as [Hmem [?|(e & k & He & Hk & Hstale)]];
      [assumption|].
    rewrite (Hwindow c e k Hmem He Hk) in Hstale. discriminate. }
  (* hence no identifier either *)
  assert (Hnoid : ∀ c, c ∈ tf → dict_get COINGECKO_IDS c = None).
  { intros c Hin. destruct (dict_get COINGECKO_IDS c) as [id|] eqn:Hid;
      [|reflexivity].
    destruct (Hex c Hin) as [Hmem _].
    specialize (Hpriced c Hmem ltac:(rewrite Hid; eauto)).
    unfold prices_get in Hpriced.
    destruct (prices1 !! c) as [p|] eqn:Hp; [|now simpl in Hpriced].
    destruct (Hlink c p Hp Hpriced) as (e & He & _).
    rewrite (Habsent c Hin) in He. discriminate. }
  destruct (Hnil (omap_none _ _ Hnoid)) as [-> ->].
  exists prices0, w0. split_and!; auto.
  { now rewrite (batch_run _ _ _ _ _ _ Hsplit). }
  intros c. unfold prices_get.
  destruct (Hpr c) as [Heq|(Hmem & e & He & Heq)].
  - rewrite Heq, lookup_empty. simpl.
    destruct (prices1 !! c) as [p|] eqn:Hp; [|reflexivity]. simpl.
    destruct p; try reflexivity; exfalso.
    all: match type of Hp with _ = Some ?p =>
           destruct (Hlink c p Hp ltac:(discriminate)) as (e & He & _) end.
    all: assert (c ∈ chains) as Hmem by (apply Hkeys; eauto).
    all: destruct (Hall c Hmem) as [Hin|(e' & _ & Hserved)];
      [rewrite (Habsent c Hin) in He; discriminate
      |rewrite Heq, lookup_empty in Hserved; discriminate].
  - rewrite Heq. simpl.
    assert (is_Some (dict_get COINGECKO_IDS c)) as Hid
      by (apply Hwf1; rewrite He; eauto).
    specialize (Hpriced c Hmem Hid). unfold prices_get in Hpriced.
    destruct (prices1 !! c) as [p|] eqn:Hp; [|now simpl in Hpriced].
    destruct (Hlink c p Hp Hpriced) as (e' & He' & <-).
    simpl. congruence.
Qed.

(** ** One chain at a time *)

Section Single.
Context (E : env).

Lemma store_prices_cons data t id chain rest prices w :
  store_prices data t ((id, chain) :: rest) (prices, w)
  = match usd_quote data id with
    | Raise e => (Raise e, (prices, w))
    | Ok p =>
        if is_None p
        then store_prices data t rest (<[chain := VNone]> prices, w)
        else store_prices data t rest
               (<[chain := p]> prices, set_cache (insert chain (Entry p t)) w)
    end.
Proof.
  simpl. unfold bind, of_result.
  destruct (usd_quote data id) as [p|e]; [|reflexivity].
  destruct (is_None p); reflexivity.
Qed.

(** The dict a fetch stage returns does not depend on the clock: the
    readings only go into the timestamps of the cache. *)
Lemma store_prices_prices data items : ∀ t t' prices w w',
  (store_prices data t items (prices, w)).1
  = (store_prices data t' items (prices, w')).1
  ∧ (store_prices data t items (prices, w)).2.1
    = (store_prices data t' items (prices, w')).2.1.
Proof.
  induction items as [|[id chain] rest IH]; intros t t' prices w w';
    [now split|].
  rewrite !store_prices_cons.
  destruct (usd_quote data id) as [p|e]; [|now split].
  destruct (is_None p); apply IH.
Qed.

Lemma fill_missing_prices tf prices w w' :
  ∃ prices', fill_missing tf (prices, w) = (Ok tt, (prices', w))
             ∧ fill_missing tf (prices, w') = (Ok tt, (prices', w')).
Proof.
  destruct (fill_missing_spec tf prices w) as (p1 & Hrun1 & Hs1 & Hi1 & Ho1).
  destruct (fill_missing_spec tf prices w') as (p2 & Hrun2 & Hs2 & Hi2 & Ho2).
  exists p1. split; [assumption|]. rewrite Hrun2.
  replace p2 with p1; [reflexivity|].
  apply map_eq. intros c.
  destruct (prices !! c) as [v|] eqn:Hc.
  - now rewrite (Hs1 _ _ Hc), (Hs2 _ _ Hc).
  - destruct (decide (c ∈ tf)).
    + now rewrite Hi1, Hi2.
    + now rewrite Ho1, Ho2.
Qed.

Lemma fetch_stage_prices tf prices w w' :
  sent w = sent w' →
  (returning_prices prices
     (try_except (fetch_uncached E tf) (fun _ => fill_missing tf)) w).1
  = (returning_prices prices
       (try_except (fetch_uncached E tf) (fun _ => fill_missing tf)) w').1.
Proof.
  intros Hsent. unfold returning_prices, try_except.
  rewrite !fetch_uncached_run. cbv zeta. rewrite Hsent.
  destruct (omap (dict_get COINGECKO_IDS) tf) as [|i ids]; [reflexivity|].
  set (req := price_request E (i :: ids)).
  assert (Hfail : ∀ p v v',
    (let (r, f) := fill_missing tf (p, v) in
     match r with
     | Ok _ => let (prices', w'0) := f in (Ok prices', w'0)
     | Raise e => let (_, w'0) := f in (Raise e, w'0)
     end).1
    = (let (r, f) := fill_missing tf (p, v') in
       match r with
       | Ok _ => let (prices', w'0) := f in (Ok prices', w'0)
       | Raise e => let (_, w'0) := f in (Raise e, w'0)
       end).1).
  { intros p v v'.
    destruct (fill_missing_prices tf p v v') as (p' & -> & ->). reflexivity. }
  destruct (remote E (length (sent w')) req) as [| | |data]; try apply Hfail.
  destruct (store_prices_prices data (collect_ids tf [] []).2
              (clock E (ticks w)) (clock E (ticks w')) prices
              (tick (logged req w)) (tick (logged req w'))) as [Hr Hp].
  destruct (store_prices data (clock E (ticks w)) _ _) as [r1 [p1 v1]].
  destruct (store_prices data (clock E (ticks w')) _ _) as [r2 [p2 v2]].
  simpl in Hr, Hp. subst r2 p2.
  destruct r1; [reflexivity|apply Hfail].
Qed.

End Single.

(** C8. From the same world (the same cache, the same clock and the same
    replies of the oracle), on a clock that does not run backwards between
    two readings, [get_token_price chain] returns what
    [get_token_prices_batch [chain]] holds for [chain]: the same price, or
    [None] in both. *)
Theorem get_token_price_agrees_with_batch E chain w :
  clock E (ticks w) ≤ clock E (S (ticks w)) →
  ∃ p w1 prices w2,
    get_token_price E chain w = (Ok p, w1)
    ∧ get_token_prices_batch E [chain] w = (Ok prices, w2)
    ∧ p = prices_get prices chain.
Proof.
  intros Hmono. unfold get_token_price, bind.
  destruct (price_cache w !! chain) as [e|] eqn:Hlook.
  - rewrite (is_price_cached_present E _ _ _ Hlook).
    destruct (fresh_at (clock E (ticks w)) e) eqn:Hfresh.
    + (* served from the cache by both *)
      unfold cache_item. simpl. rewrite Hlook.
      exists (price e), (tick w), {[chain := price e]}, (tick w).
      split_and!; [reflexivity| |].
      * unfold get_token_prices_batch, bind. simpl. unfold bind.
        rewrite (is_price_cached_present E _ _ _ Hlook), Hfresh.
        unfold cache_item. simpl. rewrite Hlook. reflexivity.
      * unfold prices_get. now rewrite lookup_singleton_eq.
    + (* stale for both: the same fetch stage, one reading apart *)
      assert (Hstale : fresh_at (clock E (S (ticks w))) e = false).
      { unfold fresh_at in *. apply Z.ltb_ge. apply Z.ltb_ge in Hfresh. lia. }
      assert (Ha : split_cached E [chain] ∅ [] (tick w)
                   = (Ok (∅, [chain]), tick (tick w))).
      { simpl. unfold bind.
        rewrite (is_price_cached_present E chain (tick w) e Hlook).
        simpl. now rewrite Hstale. }
      assert (Hb : split_cached E [chain] ∅ [] w = (Ok (∅, [chain]), tick w)).
      { simpl. unfold bind.
        rewrite (is_price_cached_present E chain w e Hlook).
        now rewrite Hfresh. }
      rewrite (batch_run E _ _ _ _ _ Ha), (batch_run E _ _ _ _ _ Hb).
      pose proof (fetch_stage_prices E [chain] ∅ (tick (tick w)) (tick w) eq_refl)
        as Heq.
      destruct (fetch_stage_spec E [chain] ∅ (tick (tick w)))
        as (pa & wa & Hruna & _).
      destruct (fetch_stage_spec E [chain] ∅ (tick w))
        as (pb & wb & Hrunb & _).
      rewrite Hruna, Hrunb in Heq |- *. simpl in Heq. injection Heq as ->.
      exists (prices_get pb chain), wa, pb, wb. now split_and!.
  - rewrite (is_price_cached_absent E _ _ Hlook).
    destruct (batch_spec E [chain] w) as (_ & _ & _ & prices & w' & _ & Hrun & _).
    rewrite Hrun. exists (prices_get prices chain), w', prices, w'.
    now split_and!.
Qed.

(** ** The fee calculation *)

Section Fees.
Context (E : env).

(** [get_host_zone] swallows every failure: it returns, [None] when the
    request got no data back, and it leaves the cache and the clock alone. *)
Lemma get_host_zone_spec chain_id w :
  ∃ host_zone,
    get_host_zone E chain_id w
    = (Ok host_zone, logged (host_zone_request E chain_id) w)
    ∧ (failed (remote E (length (sent w)) (host_zone_request E chain_id)) = true →
       host_zone = VNone).
Proof.
  unfold get_host_zone, try_except, bind, get_json, of_result, ret.
  destruct (remote E (length (sent w)) (host_zone_request E chain_id))
    as [| | |data]; try (exists VNone; now split).
  destruct (py_get data "host_zone" VNone) as [hz|e].
  - exists hz. split; [reflexivity|discriminate].
  - exists VNone. now split.
Qed.

Lemma get_token_price_returns chain w :
  ∃ p w', get_token_price E chain w = (Ok p, w').
Proof.
  unfold get_token_price, bind.
  destruct (price_cache w !! chain) as [e|] eqn:Hlook.
  - rewrite (is_price_cached_present E _ _ _ Hlook).
    destruct (fresh_at (clock E (ticks w)) e).
    + unfold cache_item. simpl. rewrite Hlook. eauto.
    + destruct (batch_spec E [chain] (tick w))
        as (_ & _ & _ & prices & w' & _ & -> & _). eauto.
  - rewrite (is_price_cached_absent E _ _ Hlook).
    destruct (batch_spec E [chain] w) as (_ & _ & _ & prices & w' & _ & -> & _).
    eauto.
Qed.

(** The calculation, once the chain identifier and the host zone are known. *)
Lemma calculate_run chain chain_id w host_zone w1 :
  dict_get CHAIN_ID_MAP (lower chain) = Some chain_id →
  get_host_zone E chain_id w = (Ok host_zone, w1) →
  calculate_daily_fee E chain w
  = if truthy host_zone then
      match read_host_zone E host_zone with
      | Raise e => (Raise e, w1)
      | Ok (staked_amount, redemption_rate) =>
          match get_token_price E chain w1 with
          | (Raise e, w2) => (Raise e, w2)
          | (Ok token_price, w2) =>
              match py_mul (daily_rewards_native staked_amount redemption_rate)
                      (price_or_zero token_price) with
              | Raise e => (Raise e, w2)
              | Ok in_usd =>
                  let daily_fees_usd :=
                    Float.div in_usd
                      (Float.of_Z (10 ^ default 6 (dict_get TOKEN_DECIMALS chain))) in
                  (Ok (Fees daily_fees_usd
                         (Float.mul daily_fees_usd (Float.lit 1 10))), w2)
              end
          end
      end
    else (Raise (ValueError ("Host zone not found for " +:+ chain_id)), w1).
Proof.
  intros Hid Hzone. unfold calculate_daily_fee, try_except.
  rewrite Hid, (CHAIN_ID_MAP_nonempty _ _ Hid).
  unfold bind at 1. rewrite Hzone.
  destruct (truthy host_zone); [|reflexivity]. cbn [negb].
  unfold bind at 1, of_result at 1.
  destruct (read_host_zone E host_zone) as [[staked rate]|e]; [|reflexivity].
  unfold bind at 1.
  destruct (get_token_price E chain w1) as [[tp|e] w2]; [|reflexivity].
  unfold bind, of_result.
  destruct (py_mul _ _); reflexivity.
Qed.

(** The handler's normalisation of the name keeps the chain identifier. *)
Lemma normalised_chain_id chain chain_id :
  dict_get CHAIN_ID_MAP (lower chain) = Some chain_id →
  dict_get CHAIN_ID_MAP
    (lower (if String.eqb (lower chain) "terra" then "terra2"%string
            else lower chain))
  = Some chain_id.
Proof.
  intros H. destruct (String.eqb_spec (lower chain) "terra") as [Heq|_].
  - rewrite Heq in H. exact H.
  - now rewrite lower_idem.
Qed.

Lemma decimals_cases chain :
  default 6 (dict_get TOKEN_DECIMALS chain) = 6
  ∨ default 6 (dict_get TOKEN_DECIMALS chain) = 18.
Proof.
  destruct (dict_get TOKEN_DECIMALS chain) as [d|] eqn:Hd; [|now left].
  simpl. revert Hd. apply (dict_get_Forall (fun d => d = 6 ∨ d = 18)).
  unfold TOKEN_DECIMALS.
  repeat (constructor; [simpl; auto|]). constructor.
Qed.

Lemma TOKEN_DECIMALS_lower : Forall (fun kv => lower kv.1 = kv.1) TOKEN_DECIMALS.
Proof. unfold TOKEN_DECIMALS. repeat constructor. Qed.

(** A finite amount priced at [0.0] is a zero, over either divisor, and so
    is its tenth. *)
Lemma zero_price_fees x d :
  Float.is_finite x = true → d = 6 ∨ d = 18 →
  let daily_fees_usd :=
    Float.div (Float.mul x (S754_zero false)) (Float.of_Z (10 ^ d)) in
  Float.is_zero daily_fees_usd = true
  ∧ Float.is_zero (Float.mul daily_fees_usd (Float.lit 1 10)) = true.
Proof.
  intros Hfin Hd.
  destruct x as [s| | |s m e]; try discriminate;
    destruct Hd as [-> | ->]; destruct s; split; reflexivity.
Qed.

End Fees.

(** C2 (what the code does). For a chain with an entry in [CHAIN_ID_MAP]
    whose host zone cannot be retrieved ([get_host_zone] returns [None] or
    another false value), [calculate_daily_fee] raises the [ValueError]
    "Host zone not found", and the single-chain endpoint turns that
    [ValueError] into status 404, not 500. *)
Theorem host_zone_failure_answers_404 E chain chain_id w host_zone w1 :
  dict_get CHAIN_ID_MAP (lower chain) = Some chain_id →
  get_host_zone E chain_id w = (Ok host_zone, w1) →
  truthy host_zone = false →
  calculate_daily_fee E chain w
  = (Raise (ValueError ("Host zone not found for " +:+ chain_id)), w1)
  ∧ get_chain_fees E chain w
    = (HTTPException 404 ("Host zone not found for " +:+ chain_id), w1).
Proof.
  intros Hid Hzone Hfalse. split.
  - rewrite (calculate_run E _ _ _ _ _ Hid Hzone), Hfalse. reflexivity.
  - unfold get_chain_fees.
    rewrite (calculate_run E _ _ _ _ _ (normalised_chain_id _ _ Hid) Hzone), Hfalse.
    reflexivity.
Qed.

(** C6. With six decimals, a staked amount of 1,000,000, a redemption rate
    of 1.5 and a price of 10, the daily rewards are 750.0 and
    [calculate_daily_fee] returns dailyFees 0.0075 and dailyRevenue 0.00075,
    as binary64 values. *)
Theorem fee_example E chain chain_id w host_zone w1 w2 :
  dict_get CHAIN_ID_MAP (lower chain) = Some chain_id →
  default 6 (dict_get TOKEN_DECIMALS chain) = 6 →
  get_host_zone E chain_id w = (Ok host_zone, w1) →
  truthy host_zone = true →
  read_host_zone E host_zone = Ok (Float.of_Z 1000000, Float.lit 15 10) →
  get_token_price E chain w1 = (Ok (VNum (Float.of_Z 10)), w2) →
  daily_rewards_native (Float.of_Z 1000000) (Float.lit 15 10) = Float.of_Z 750
  ∧ calculate_daily_fee E chain w
    = (Ok (Fees (Float.lit 75 10000) (Float.lit 75 100000)), w2)
  ∧ Float.mul (Float.lit 75 10000) (Float.lit 1 10) = Float.lit 75 100000.
Proof.
  intros Hid Hdec Hzone Htrue Hread Hprice.
  split; [vm_compute; reflexivity|]. split; [|vm_compute; reflexivity].
  rewrite (calculate_run E _ _ _ _ _ Hid Hzone), Htrue, Hread, Hprice, Hdec.
  vm_compute. reflexivity.
Qed.

(** C7. For a chain with an entry in [CHAIN_ID_MAP] and a host zone that was
    retrieved and read, a price that resolves to [None] is replaced by 0.0
    and [calculate_daily_fee] returns: dailyFees is the daily rewards times
    0.0 over the divisor and dailyRevenue its tenth, both zeros whenever the
    daily rewards are finite. *)
Theorem missing_price_counts_as_zero E chain chain_id w host_zone w1 staked rate w2 :
  dict_get CHAIN_ID_MAP (lower chain) = Some chain_id →
  get_host_zone E chain_id w = (Ok host_zone, w1) →
  truthy host_zone = true →
  read_host_zone E host_zone = Ok (staked, rate) →
  get_token_price E chain w1 = (Ok VNone, w2) →
  ∃ estimate,
    calculate_daily_fee E chain w = (Ok estimate, w2)
    ∧ dailyFees estimate
      = Float.div (Float.mul (daily_rewards_native staked rate) (S754_zero false))
          (Float.of_Z (10 ^ default 6 (dict_get TOKEN_DECIMALS chain)))
    ∧ dailyRevenue estimate = Float.mul (dailyFees estimate) (Float.lit 1 10)
    ∧ (Float.is_finite (daily_rewards_native staked rate) = true →
       Float.is_zero (dailyFees estimate) = true
       ∧ Float.is_zero (dailyRevenue estimate) = true).
Proof.
  intros Hid Hzone Htrue Hread Hprice.
  rewrite (calculate_run E _ _ _ _ _ Hid Hzone), Htrue, Hread, Hprice.
  cbn [price_or_zero truthy negb py_mul].
  eexists. split_and!; [reflexivity..|].
  intros Hfin. cbn [dailyFees dailyRevenue].
  apply zero_price_fees; [assumption|apply decimals_cases].
Qed.

(** C10. [calculate_daily_fee] lowers the name for [CHAIN_ID_MAP] only.  A
    name that is not in lower case but whose lower-case form is known gets
    past the chain lookup, finds no price-feed identifier and no decimals,
    resolves to no price without any request to the oracle, and, once the
    host zone is retrieved and read with finite daily rewards, yields
    dailyFees and dailyRevenue that are both zero. *)
Theorem mixed_case_name_yields_zero E chain chain_id w host_zone w1 staked rate :
  lower chain ≠ chain →
  dict_get CHAIN_ID_MAP (lower chain) = Some chain_id →
  cache_wf (price_cache w) →
  get_host_zone E chain_id w = (Ok host_zone, w1) →
  truthy host_zone = true →
  read_host_zone E host_zone = Ok (staked, rate) →
  Float.is_finite (daily_rewards_native staked rate) = true →
  dict_get COINGECKO_IDS chain = None
  ∧ dict_get TOKEN_DECIMALS chain = None
  ∧ get_token_price E chain w1 = (Ok VNone, w1)
  ∧ ∃ estimate,
      calculate_daily_fee E chain w = (Ok estimate, w1)
      ∧ Float.is_zero (dailyFees estimate) = true
      ∧ Float.is_zero (dailyRevenue estimate) = true.
Proof.
  intros Hcase Hid Hwf Hzone Htrue Hread Hfin.
  assert (Hnoid : dict_get COINGECKO_IDS chain = None).
  { destruct (dict_get COINGECKO_IDS chain) eqn:Hc; [|reflexivity].
    now apply (dict_get_lower _ _ _ COINGECKO_IDS_lower) in Hc. }
  assert (Hnodec : dict_get TOKEN_DECIMALS chain = None).
  { destruct (dict_get TOKEN_DECIMALS chain) eqn:Hc; [|reflexivity].
    now apply (dict_get_lower _ _ _ TOKEN_DECIMALS_lower) in Hc. }
  assert (Hw1 : price_cache w1 = price_cache w).
  { destruct (get_host_zone_spec E chain_id w) as (hz & Hrun & _).
    rewrite Hrun in Hzone. now injection Hzone as _ <-. }
  assert (Habsent : price_cache w1 !! chain = None).
  { rewrite Hw1. destruct (price_cache w !! chain) eqn:Hc; [|reflexivity].
    destruct (Hwf chain) as [id Hsome]; [rewrite Hc; eauto|].
    rewrite Hnoid in Hsome. discriminate. }
  assert (Hprice : get_token_price E chain w1 = (Ok VNone, w1)).
  { unfold get_token_price, bind.
    rewrite (is_price_cached_absent E _ _ Habsent).
    assert (Hsplit : split_cached E [chain] ∅ [] w1 = (Ok (∅, [chain]), w1)).
    { simpl. unfold bind. now rewrite (is_price_cached_absent E _ _ Habsent). }
    rewrite (batch_run E _ _ _ _ _ Hsplit).
    unfold returning_prices, try_except. rewrite fetch_uncached_run.
    cbv zeta. rewrite (omap_none (dict_get COINGECKO_IDS) [chain]); [reflexivity|].
    now intros x ->%list_elem_of_singleton. }
  split_and!; auto.
  rewrite (calculate_run E _ _ _ _ _ Hid Hzone), Htrue, Hread, Hprice.
  cbn [price_or_zero truthy negb py_mul].
  eexists. split; [reflexivity|]. cbn [dailyFees dailyRevenue].
  apply zero_price_fees; [assumption|apply decimals_cases].
Qed.

(** ** The cache invariant along the calls *)

Section Invariant.
Context (E : env).

Lemma cache_wf_init : cache_wf (price_cache init_world).
Proof. intros c [e He]. simpl in He. rewrite lookup_empty in He. discriminate. Qed.

Lemma get_token_prices_batch_wf chains w :
  cache_wf (price_cache w) →
  cache_wf (price_cache (get_token_prices_batch E chains w).2).
Proof.
  intros Hwf.
  destruct (batch_spec E chains w) as (_ & _ & _ & prices & w' & _ & Hrun & _).
  destruct (batch_result_facts E _ _ _ _ Hrun) as (_ & _ & Hkeep).
  rewrite Hrun. now apply Hkeep.
Qed.

Lemma get_token_price_wf chain w :
  cache_wf (price_cache w) →
  cache_wf (price_cache (get_token_price E chain w).2).
Proof.
  intros Hwf. unfold get_token_price, bind.
  destruct (price_cache w !! chain) as [e|] eqn:Hlook.
  - rewrite (is_price_cached_present E _ _ _ Hlook).
    destruct (fresh_at (clock E (ticks w)) e).
    + unfold cache_item. simpl. now rewrite Hlook.
    + pose proof (get_token_prices_batch_wf [chain] (tick w) Hwf) as Hb.
      destruct (get_token_prices_batch E [chain] (tick w)) as [[p|x] w'];
        exact Hb.
  - rewrite (is_price_cached_absent E _ _ Hlook).
    pose proof (get_token_prices_batch_wf [chain] w Hwf) as Hb.
    destruct (get_token_prices_batch E [chain] w) as [[p|x] w']; exact Hb.
Qed.

Lemma calculate_daily_fee_wf chain w :
  cache_wf (price_cache w) →
  cache_wf (price_cache (calculate_daily_fee E chain w).2).
Proof.
  intros Hwf.
  destruct (dict_get CHAIN_ID_MAP (lower chain)) as [chain_id|] eqn:Hid.
  - destruct (get_host_zone_spec E chain_id w) as (hz & Hzone & _).
    rewrite (calculate_run E _ _ _ _ _ Hid Hzone).
    destruct (truthy hz); [|exact Hwf].
    destruct (read_host_zone E hz) as [[staked rate]|e]; [|exact Hwf].
    pose proof (get_token_price_wf chain
                  (logged (host_zone_request E chain_id) w) Hwf) as Hp.
    destruct (get_token_price E chain _) as [[tp|e] w2]; [|exact Hp].
    destruct (py_mul _ _); exact Hp.
  - now rewrite (calculate_unknown E _ _ Hid).
Qed.

End Invariant.

(** Two chains that share a price-feed identifier: [chain_id_map] keeps one
    chain per identifier, so of terra and terra2 only the one listed last is
    priced and cached. *)
Example shared_identifier_prices_one_chain :
  get_token_prices_batch
    (scenario (fun _ => 0) NoResponse
       (Body (VDict [("terra-luna-2", VDict [("usd", ten)])]%string)))
    ["terra"; "terra2"]%string init_world
  = (Ok {[ "terra2"%string := ten ]},
     World {[ "terra2"%string := Entry ten 0 ]} 1
       [Request "https://api.coingecko.com/api/v3/simple/price"
          [("ids", "terra-luna-2,terra-luna-2"); ("vs_currencies", "usd")]%string]).
Proof. vm_compute. reflexivity. Qed.

(** ** The theorems at work on the scenarios *)

(** C1 as first stated fails: a chain listed twice, whose entry expires
    between the two readings of the first loop, is both served from the
    cache and collected; when the request then fails, the handler leaves the
    price it finds, so the chain is in the stale set and still priced. *)
Lemma failed_fetch_not_always_absent :
  ¬ (∀ E chains w prices0 to_fetch w0 prices w' req,
       split_cached E chains ∅ [] w = (Ok (prices0, to_fetch), w0) →
       get_token_prices_batch E chains w = (Ok prices, w') →
       sent w' = sent w ++ [req] →
       failed (remote E (length (sent w)) req) = true →
       ∀ c, c ∈ to_fetch → prices_get prices c = VNone).
Proof.
  intros H.
  assert (Hsplit : split_cached straddle_env ["cosmos"; "cosmos"]%string ∅ []
                     cosmos_cached
                   = (Ok ({[ "cosmos"%string := ten ]}, ["cosmos"%string]),
                      World (price_cache cosmos_cached) 2 []))
    by (vm_compute; reflexivity).
  assert (Hrun : get_token_prices_batch straddle_env ["cosmos"; "cosmos"]%string
                   cosmos_cached
                 = (Ok {[ "cosmos"%string := ten ]},
                    World (price_cache cosmos_cached) 2
                      [price_request straddle_env ["cosmos"%string]]))
    by (vm_compute; reflexivity).
  specialize (H _ _ _ _ _ _ _ _ _ Hsplit Hrun eq_refl eq_refl
                "cosmos"%string ltac:(apply list_elem_of_here)).
  vm_compute in H. discriminate H.
Qed.

Lemma batch_never_raises_witness :
  ∃ prices w',
    get_token_prices_batch offline_env ["cosmos"; "osmosis"]%string init_world
    = (Ok prices, w')
    ∧ price_cache w' = ∅
    ∧ prices_get prices "cosmos" = VNone
    ∧ prices_get prices "osmosis" = VNone.
Proof.
  destruct (batch_never_raises offline_env ["cosmos"; "osmosis"]%string init_world)
    as (prices0 & tf & w0 & prices & w' & Hsplit & Hrun & Hfail).
  exists prices, w'. split; [exact Hrun|].
  vm_compute in Hsplit. injection Hsplit as <- <- <-.
  assert (Hsent : sent w' = sent init_world
                    ++ [price_request offline_env ["cosmos"; "osmosis"]%string]).
  { vm_compute in Hrun. injection Hrun as _ <-. reflexivity. }
  destruct (Hfail _ Hsent eq_refl) as [Hcache Habsent].
  split; [exact Hcache|].
  split; apply Habsent; try reflexivity.
  - apply list_elem_of_here.
  - apply list_elem_of_further, list_elem_of_here.
Defined.

Lemma batch_sends_one_request_witness :
  ∃ prices w',
    get_token_prices_batch quoting_env ["cosmos"; "osmosis"]%string init_world
    = (Ok prices, w')
    ∧ sent w'
      = [Request "https://api.coingecko.com/api/v3/simple/price"
           [("ids", "cosmos,osmosis"); ("vs_currencies", "usd")]%string].
Proof.
  destruct (batch_sends_one_request quoting_env ["cosmos"; "osmosis"]%string
              init_world)
    as (prices0 & tf & w0 & prices & w' & Hsplit & Hrun & Hone & _).
  exists prices, w'. split; [exact Hrun|].
  vm_compute in Hsplit. injection Hsplit as <- <- <-.
  rewrite Hone.
  - reflexivity.
  - exists "cosmos"%string, "cosmos"%string.
    split; [apply list_elem_of_here|reflexivity].
Defined.

Lemma cache_written_only_for_quoted_chain_witness :
  ∃ prices w',
    get_token_prices_batch unlisted_env ["umee"]%string cosmos_cached
    = (Ok prices, w')
    ∧ price_cache w' !! "umee"%string = None.
Proof.
  destruct (cache_written_only_for_quoted_chain unlisted_env ["umee"]%string
              cosmos_cached "umee"%string)
    as (prices & w' & Hrun & _ & _ & Hunquoted).
  exists prices, w'. split; [exact Hrun|].
  assert (Hsent : sent w' = sent cosmos_cached
                    ++ [price_request unlisted_env ["umee"%string]]).
  { vm_compute in Hrun. injection Hrun as _ <-. reflexivity. }
  rewrite (Hunquoted _ (VDict []) "umee"%string Hsent eq_refl eq_refl).
  - reflexivity.
  - intros p Hp. vm_compute in Hp. now injection Hp as <-.
Defined.

(** C3 as first stated fails: when the oracle's data holds no quote for a
    chain, nothing is cached for it, and a second call at the very same
    instant, with the oracle unchanged, sends a request again. *)
Lemma repeat_call_may_fetch_again :
  ¬ (∀ E chains w prices1 w1 prices2 w2,
       (∀ k, clock E k = clock E 0) →
       (∀ n m req, remote E n req = remote E m req) →
       get_token_prices_batch E chains w = (Ok prices1, w1) →
       get_token_prices_batch E chains w1 = (Ok prices2, w2) →
       sent w2 = sent w1 ∧ ∀ c, prices_get prices2 c = prices_get prices1 c).
Proof.
  intros H.
  set (req := price_request unlisted_env ["umee"%string]).
  assert (H1 : get_token_prices_batch unlisted_env ["umee"%string] init_world
               = (Ok {[ "umee"%string := VNone ]}, World ∅ 1 [req]))
    by (vm_compute; reflexivity).
  assert (H2 : get_token_prices_batch unlisted_env ["umee"%string]
                 (World ∅ 1 [req])
               = (Ok {[ "umee"%string := VNone ]}, World ∅ 2 [req; req]))
    by (vm_compute; reflexivity).
  destruct (H unlisted_env _ _ _ _ _ _ (fun _ => eq_refl) (fun _ _ _ => eq_refl)
              H1 H2) as [Hsent _].
  discriminate Hsent.
Qed.

Lemma second_batch_served_from_cache_witness :
  ∃ prices1 w1 prices2 w2,
    get_token_prices_batch quoting_env ["cosmos"]%string init_world
    = (Ok prices1, w1)
    ∧ get_token_prices_batch quoting_env ["cosmos"]%string w1 = (Ok prices2, w2)
    ∧ sent w2 = sent w1
    ∧ prices_get prices2 "cosmos" = ten.
Proof.
  set (w1 := World {[ "cosmos"%string := Entry ten 0 ]} 1
               [price_request quoting_env ["cosmos"%string]]).
  assert (H1 : get_token_prices_batch quoting_env ["cosmos"%string] init_world
               = (Ok {[ "cosmos"%string := ten ]}, w1))
    by (vm_compute; reflexivity).
  destruct (second_batch_served_from_cache quoting_env ["cosmos"%string]
              init_world {[ "cosmos"%string := ten ]} w1)
    as (prices2 & w2 & H2 & Hsent & _ & Hsame).
  - intros c [e He]. simpl in He. rewrite lookup_empty in He. discriminate.
  - exact H1.
  - intros c ->%list_elem_of_singleton _. vm_compute. discriminate.
  - intros c e k ->%list_elem_of_singleton He _.
    vm_compute in He. injection He as <-. reflexivity.
  - exists {[ "cosmos"%string := ten ]}, w1, prices2, w2.
    split_and!; auto.
Defined.

Lemma get_token_price_agrees_with_batch_witness :
  ∃ p w1 prices w2,
    get_token_price straddle_env "cosmos" (tick cosmos_cached) = (Ok p, w1)
    ∧ get_token_prices_batch straddle_env ["cosmos"%string] (tick cosmos_cached)
      = (Ok prices, w2)
    ∧ p = prices_get prices "cosmos".
Proof.
  apply (get_token_price_agrees_with_batch straddle_env "cosmos"
           (tick cosmos_cached)).
  vm_compute. discriminate.
Defined.

Lemma host_zone_failure_answers_404_witness :
  get_chain_fees offline_env "cosmos" init_world
  = (HTTPException 404 "Host zone not found for cosmoshub-4",
     logged (host_zone_request offline_env "cosmoshub-4") init_world).
Proof.
  exact (proj2 (host_zone_failure_answers_404 offline_env "cosmos" "cosmoshub-4"
                  init_world VNone _ eq_refl eq_refl eq_refl)).
Defined.

Lemma fee_example_witness :
  ∃ w2,
    calculate_daily_fee quoting_env "cosmos" init_world
    = (Ok (Fees (Float.lit 75 10000) (Float.lit 75 100000)), w2).
Proof.
  eexists.
  refine (proj1 (proj2 (fee_example quoting_env "cosmos" "cosmoshub-4" init_world
                          cosmos_host_zone
                          (logged (host_zone_request quoting_env "cosmoshub-4")
                             init_world)
                          _ eq_refl eq_refl _ eq_refl _ _))).
  - vm_compute. reflexivity.
  - vm_compute. reflexivity.
  - vm_compute. reflexivity.
Defined.

Lemma missing_price_counts_as_zero_witness :
  ∃ estimate w2,
    calculate_daily_fee oracle_down_env "cosmos" init_world = (Ok estimate, w2)
    ∧ Float.is_zero (dailyFees estimate) = true
    ∧ Float.is_zero (dailyRevenue estimate) = true.
Proof.
  destruct (missing_price_counts_as_zero oracle_down_env "cosmos" "cosmoshub-4"
              init_world
              cosmos_host_zone
              (logged (host_zone_request oracle_down_env "cosmoshub-4") init_world)
              (Float.of_Z 1000000) (Float.lit 15 10)
              (logged (price_request oracle_down_env ["cosmos"%string])
                 (logged (host_zone_request oracle_down_env "cosmoshub-4") init_world)))
    as (estimate & Hrun & _ & _ & Hzero);
    try (vm_compute; reflexivity).
  eexists _, _. split; [exact Hrun|]. apply Hzero. vm_compute. reflexivity.
Defined.

Lemma mixed_case_name_yields_zero_witness :
  ∃ estimate w1,
    calculate_daily_fee quoting_env "Cosmos" init_world = (Ok estimate, w1)
    ∧ sent w1 = [host_zone_request quoting_env "cosmoshub-4"]
    ∧ Float.is_zero (dailyFees estimate) = true
    ∧ Float.is_zero (dailyRevenue estimate) = true.
Proof.
  destruct (mixed_case_name_yields_zero quoting_env "Cosmos" "cosmoshub-4"
              init_world
              cosmos_host_zone
              (logged (host_zone_request quoting_env "cosmoshub-4") init_world)
              (Float.of_Z 1000000) (Float.lit 15 10))
    as (_ & _ & _ & estimate & Hrun & Hfees & Hrev);
    try (vm_compute; reflexivity).
  - vm_compute. discriminate.
  - intros c [e He]. simpl in He. rewrite lookup_empty in He. discriminate.
  - eexists _, _. split_and!; [exact Hrun|reflexivity|exact Hfees|exact Hrev].
Defined.

(** * Further properties of the code *)

(** ** The tables *)

Lemma dict_get_is_Some {V} (d : list (string * V)) k :
  is_Some (dict_get d k) ↔ k ∈ d.*1.
Proof.
  induction d as [|[k' v] d IH]; simpl.
  - split; [intros [? [=]]|intros H; inversion H].
  - destruct (String.eqb_spec k' k) as [->|Hne].
    + split; [intros _; apply list_elem_of_here|eauto].
    + rewrite IH. split; [apply list_elem_of_further|].
      intros [->|?]%elem_of_cons; [congruence|assumption].
Qed.

(** X1. The three tables have the same chains: a name found in
    [CHAIN_ID_MAP] has a price-feed identifier and an explicit number of
    decimals (6 or 18), so the default of 6 is never what such a name gets;
    and conversely. *)
Theorem tables_share_their_chains c :
  (is_Some (dict_get CHAIN_ID_MAP c) ↔ is_Some (dict_get COINGECKO_IDS c))
  ∧ (is_Some (dict_get CHAIN_ID_MAP c) ↔ is_Some (dict_get TOKEN_DECIMALS c))
  ∧ (∀ chain_id, dict_get CHAIN_ID_MAP c = Some chain_id →
       ∃ d, dict_get TOKEN_DECIMALS c = Some d ∧ (d = 6 ∨ d = 18)).
Proof.
  rewrite !dict_get_is_Some.
  split_and!; [reflexivity..|].
  intros chain_id Hid.
  assert (is_Some (dict_get TOKEN_DECIMALS c)) as [d Hd].
  { apply dict_get_is_Some.
    change (TOKEN_DECIMALS.*1) with (CHAIN_ID_MAP.*1).
    apply dict_get_is_Some. eauto. }
  exists d. split; [assumption|].
  pose proof (decimals_cases c) as Hcases. rewrite Hd in Hcases. exact Hcases.
Qed.

Lemma tables_share_their_chains_witness :
  ∃ d, dict_get TOKEN_DECIMALS "dydx" = Some d ∧ (d = 6 ∨ d = 18).
Proof.
  exact (proj2 (proj2 (tables_share_their_chains "dydx")) "dydx-mainnet-1" eq_refl).
Defined.

(** ** The single-chain endpoint *)

(** X2. The endpoint does not look at the case of the name, and reads
    terra, in any case, as terra2: the answer and the world reached are
    those for the lower-case name, and for terra those for terra2. *)
Theorem endpoint_ignores_case E chain w :
  get_chain_fees E chain w = get_chain_fees E (lower chain) w
  ∧ (lower chain = "terra"%string →
     get_chain_fees E chain w = get_chain_fees E "terra2" w).
Proof.
  split.
  - unfold get_chain_fees. now rewrite lower_idem.
  - intros Hterra. unfold get_chain_fees. rewrite Hterra. reflexivity.
Qed.

Lemma endpoint_ignores_case_witness :
  get_chain_fees quoting_env "TeRRa" init_world
  = get_chain_fees quoting_env "terra2" init_world.
Proof.
  exact (proj2 (endpoint_ignores_case quoting_env "TeRRa" init_world) eq_refl).
Defined.

Lemma read_host_zone_raises E host_zone e :
  read_host_zone E host_zone = Raise e →
  (∃ s, e = ValueError ("could not convert string to float: '" +:+ s +:+ "'"))
  ∨ e = AttributeError ∨ e = TypeError.
Proof.
  unfold read_host_zone.
  assert (Hget : ∀ k d r, py_get host_zone k d = Raise r → r = AttributeError).
  { intros k d r. unfold py_get. destruct host_zone; try (now intros [= <-]).
    destruct (dict_get items k); discriminate. }
  assert (Hfloat : ∀ v x, py_float E v = Raise x →
            (∃ s, x = ValueError ("could not convert string to float: '" +:+ s +:+ "'"))
            ∨ x = TypeError).
  { intros v x. unfold py_float. destruct v; try discriminate;
      try (intros [= <-]; now right).
    destruct (float_of_str E s); [discriminate|]. intros [= <-]. left. eauto. }
  unfold rbind.
  destruct (py_get host_zone "redemption_rate" _) as [v1|r1] eqn:H1;
    [|intros [= <-]; right; left; eauto].
  destruct (py_float E v1) as [x1|r1] eqn:F1;
    [|intros [= <-]; destruct (Hfloat _ _ F1); auto].
  destruct (py_get host_zone "total_delegations" _) as [v2|r2] eqn:H2;
    [|intros [= <-]; right; left; eauto].
  destruct (py_float E v2) as [x2|r2] eqn:F2;
    [|intros [= <-]; destruct (Hfloat _ _ F2); auto].
  destruct (py_get host_zone "host_denom" _) as [v3|r3] eqn:H3;
    [|intros [= <-]; right; left; eauto].
  destruct v3; simpl; try discriminate; intros [= <-]; auto.
Qed.



(** ** The gateway *)

Section GatewayFacts.
Context (E : env).

Lemma get_json_run req w :
  get_json E req w
  = (match remote E (length (sent w)) req with
     | Body data => Ok data
     | r => Raise (raised_by r)
     end, logged req w).
Proof.
  unfold get_json. destruct (remote E (length (sent w)) req); reflexivity.
Qed.

End GatewayFacts.

(** X4. [get_host_zones] sends one request to the list of host zones and
    lets a failure through: it raises when the reply carries no data or the
    data is not an object, and otherwise returns the [host_zone] member,
    the empty list when there is none.  [get_host_zone], on the same kinds of
    reply, returns [None] instead of raising. *)
Theorem get_host_zones_raises_where_get_host_zone_returns E chain_id w :
  let rep := remote E (length (sent w)) (host_zones_request E) in
  (failed rep = true →
   get_host_zones E w = (Raise (raised_by rep), logged (host_zones_request E) w))
  ∧ (∀ items, rep = Body (VDict items) →
       get_host_zones E w
       = (Ok (default (VList []) (dict_get items "host_zone")),
          logged (host_zones_request E) w))
  ∧ (∀ data, rep = Body data → (∀ items, data ≠ VDict items) →
       get_host_zones E w = (Raise AttributeError, logged (host_zones_request E) w))
  ∧ (failed (remote E (length (sent w)) (host_zone_request E chain_id)) = true →
     get_host_zone E chain_id w
     = (Ok VNone, logged (host_zone_request E chain_id) w)).
Proof.
  cbv zeta. unfold get_host_zones, get_host_zone, try_except, bind.
  rewrite !get_json_run. split_and!.
  - destruct (remote E (length (sent w)) (host_zones_request E));
      try reflexivity; discriminate.
  - intros items ->. unfold of_result, py_get.
    destruct (dict_get items "host_zone"); reflexivity.
  - intros data -> Hshape. unfold of_result, py_get.
    destruct data; try reflexivity. now destruct (Hshape items).
  - destruct (remote E (length (sent w)) (host_zone_request E chain_id));
      try reflexivity; discriminate.
Qed.

Lemma get_host_zones_raises_where_get_host_zone_returns_witness :
  get_host_zones offline_env init_world
  = (Raise RequestError, logged (host_zones_request offline_env) init_world)
  ∧ get_host_zone offline_env "cosmoshub-4" init_world
    = (Ok VNone, logged (host_zone_request offline_env "cosmoshub-4") init_world).
Proof.
  destruct (get_host_zones_raises_where_get_host_zone_returns offline_env
              "cosmoshub-4" init_world) as (Hraise & _ & _ & Hnone).
  split; [exact (Hraise eq_refl)|exact (Hnone eq_refl)].
Defined.

(** X5. GET /health never raises, sends exactly one request, to the list
    of host zones, and leaves the cache and the clock alone.  It reports
    unhealthy with the exception when the reply carries no data, and healthy
    with the length of the list otherwise; an object without a [host_zone]
    member counts as healthy with zero host zones. *)
Theorem health_check_reports E w :
  let rep := remote E (length (sent w)) (host_zones_request E) in
  ∃ h,
    health_check E w = (Ok h, logged (host_zones_request E) w)
    ∧ (failed rep = true → h = Unhealthy (raised_by rep))
    ∧ (∀ items l, rep = Body (VDict items) →
         dict_get items "host_zone" = Some (VList l) → h = Healthy (length l))
    ∧ (∀ items, rep = Body (VDict items) →
         dict_get items "host_zone" = None → h = Healthy 0).
Proof.
  cbv zeta. unfold health_check, get_host_zones, try_except, bind.
  rewrite get_json_run.
  destruct (remote E (length (sent w)) (host_zones_request E)) as [| | |data];
    try (eexists; split_and!; [reflexivity|reflexivity|discriminate..]).
  unfold of_result.
  destruct (py_get data "host_zone" (VList [])) as [zones|e] eqn:Hget.
  - destruct (py_len zones) as [n|e] eqn:Hlen.
    + exists (Healthy n). split_and!; [reflexivity|discriminate| |].
      * intros items l [= ->] Hitem. simpl in Hget. rewrite Hitem in Hget.
        injection Hget as <-. simpl in Hlen. now injection Hlen as <-.
      * intros items [= ->] Hitem. simpl in Hget. rewrite Hitem in Hget.
        injection Hget as <-. simpl in Hlen. now injection Hlen as <-.
    + exists (Unhealthy e). split_and!; [reflexivity|discriminate| |].
      * intros items l [= ->] Hitem. simpl in Hget. rewrite Hitem in Hget.
        injection Hget as <-. discriminate Hlen.
      * intros items [= ->] Hitem. simpl in Hget. rewrite Hitem in Hget.
        injection Hget as <-. discriminate Hlen.
  - exists (Unhealthy e). split_and!; [reflexivity|discriminate| |].
    + intros items l [= ->] Hitem. simpl in Hget. rewrite Hitem in Hget.
      discriminate Hget.
    + intros items [= ->] Hitem. simpl in Hget. rewrite Hitem in Hget.
      discriminate Hget.
Qed.

Lemma health_check_reports_witness :
  health_check two_zones_env init_world
  = (Ok (Healthy 2), logged (host_zones_request two_zones_env) init_world).
Proof.
  destruct (health_check_reports two_zones_env init_world)
    as (h & Hrun & _ & Hcount & _).
  rewrite Hrun. f_equal. f_equal.
  exact (Hcount _ [cosmos_host_zone; cosmos_host_zone] eq_refl eq_refl).
Defined.

(** X6. [get_sttoken_supply] never raises and sends exactly one request,
    the supply query for the denom it is given.  A reply without data gives [None]; an object
    without an [amount] member gives what [float("0")] gives. *)
Theorem get_sttoken_supply_degrades E denom w :
  let rep := remote E (length (sent w)) (supply_request E denom) in
  ∃ supply,
    get_sttoken_supply E denom w = (Ok supply, logged (supply_request E denom) w)
    ∧ (failed rep = true → supply = None)
    ∧ (∀ items, rep = Body (VDict items) → dict_get items "amount" = None →
         supply = float_of_str E "0").
Proof.
  cbv zeta. unfold get_sttoken_supply, try_except, bind.
  rewrite get_json_run.
  destruct (remote E (length (sent w)) (supply_request E denom)) as [| | |data];
    try (eexists; split_and!; [reflexivity|reflexivity|discriminate]).
  unfold of_result.
  destruct (py_get data "amount" (VDict [])) as [coin|e] eqn:Hcoin.
  - destruct (py_get coin "amount" (VStr "0")) as [amount|e] eqn:Hamount.
    + destruct (py_float E amount) as [x|e] eqn:Hfloat.
      * exists (Some x). split_and!; [reflexivity|discriminate|].
        intros items [= ->] Hitem. simpl in Hcoin. rewrite Hitem in Hcoin.
        injection Hcoin as <-. simpl in Hamount. injection Hamount as <-.
        simpl in Hfloat. destruct (float_of_str E "0"); congruence.
      * exists None. split_and!; [reflexivity|discriminate|].
        intros items [= ->] Hitem. simpl in Hcoin. rewrite Hitem in Hcoin.
        injection Hcoin as <-. simpl in Hamount. injection Hamount as <-.
        simpl in Hfloat. destruct (float_of_str E "0"); congruence.
    + exists None. split_and!; [reflexivity|discriminate|].
      intros items [= ->] Hitem. simpl in Hcoin. rewrite Hitem in Hcoin.
      injection Hcoin as <-. discriminate Hamount.
  - exists None. split_and!; [reflexivity|discriminate|].
    intros items [= ->] Hitem. simpl in Hcoin. rewrite Hitem in Hcoin.
    discriminate Hcoin.
Qed.

Lemma get_sttoken_supply_degrades_witness :
  get_sttoken_supply unlisted_env "stuatom" init_world
  = (Ok (Some (S754_zero false)),
     logged (supply_request unlisted_env "stuatom") init_world).
Proof.
  destruct (get_sttoken_supply_degrades unlisted_env "stuatom" init_world)
    as (supply & Hrun & _ & Hzero).
  rewrite Hrun. f_equal. f_equal.
  exact (Hzero [("host_zone", cosmos_host_zone)]%string eq_refl eq_refl).
Defined.

(** ** The formula *)

Lemma binary_round_aux_sign prec emax s m e l :
  s = false → negative (binary_round_aux prec emax s m e l) = false.
Proof.
  intros ->. unfold binary_round_aux.
  destruct (shr_fexp prec emax m e l) as [mrs e'].
  destruct (shr_fexp prec emax _ e' loc_Exact) as [mrs' e''].
  destruct (shr_m mrs'); [reflexivity| |reflexivity].
  destruct (e'' <=? emax - prec); reflexivity.
Qed.

Lemma mul_sign x y :
  negative x = false → negative y = false → negative (Float.mul x y) = false.
Proof.
  destruct x as [sx|sx| |sx mx ex], y as [sy|sy| |sy my ey]; simpl;
    intros Hx Hy; subst; try reflexivity.
  now apply binary_round_aux_sign.
Qed.

Lemma div_sign x y :
  negative x = false → negative y = false → negative (Float.div x y) = false.
Proof.
  destruct x as [sx|sx| |sx mx ex], y as [sy|sy| |sy my ey]; simpl;
    intros Hx Hy; subst; try reflexivity.
  destruct (SFdiv_core_binary _ _ _ _ _ _) as [[mz ez] lz].
  now apply binary_round_aux_sign.
Qed.

(** X7. From a staked amount, a redemption rate and a numeric price none
    of which is negative, [calculate_daily_fee] never returns a negative
    dailyFees or dailyRevenue (they can be nan or infinite, not below
    zero). *)
Theorem fees_are_never_negative E chain chain_id w host_zone w1 staked rate p w2 :
  dict_get CHAIN_ID_MAP (lower chain) = Some chain_id →
  get_host_zone E chain_id w = (Ok host_zone, w1) →
  truthy host_zone = true →
  read_host_zone E host_zone = Ok (staked, rate) →
  get_token_price E chain w1 = (Ok (VNum p), w2) →
  negative staked = false → negative rate = false → negative p = false →
  ∃ estimate,
    calculate_daily_fee E chain w = (Ok estimate, w2)
    ∧ negative (dailyFees estimate) = false
    ∧ negative (dailyRevenue estimate) = false.
Proof.
  intros Hid Hzone Htrue Hread Hprice Hs Hr Hp.
  rewrite (calculate_run E _ _ _ _ _ Hid Hzone), Htrue, Hread, Hprice.
  assert (Hq : ∃ q, price_or_zero (VNum p) = VNum q ∧ negative q = false).
  { unfold price_or_zero. destruct (negb (truthy (VNum p))); eauto. }
  destruct Hq as (q & -> & Hq). cbn [py_mul].
  eexists. split; [reflexivity|]. cbn [dailyFees dailyRevenue].
  assert (Hfees : negative
            (Float.div (Float.mul (daily_rewards_native staked rate) q)
               (Float.of_Z (10 ^ default 6 (dict_get TOKEN_DECIMALS chain))))
          = false).
  { apply div_sign.
    - apply mul_sign; [|assumption].
      unfold daily_rewards_native. apply mul_sign; [now apply mul_sign|].
      vm_compute. reflexivity.
    - destruct (decimals_cases chain) as [-> | ->]; vm_compute; reflexivity. }
  split; [exact Hfees|].
  apply mul_sign; [exact Hfees|vm_compute; reflexivity].
Qed.

Lemma fees_are_never_negative_witness :
  ∃ estimate w2,
    calculate_daily_fee quoting_env "cosmos" init_world = (Ok estimate, w2)
    ∧ negative (dailyFees estimate) = false
    ∧ negative (dailyRevenue estimate) = false.
Proof.
  edestruct (fees_are_never_negative quoting_env "cosmos" "cosmoshub-4" init_world
               cosmos_host_zone
               (logged (host_zone_request quoting_env "cosmoshub-4") init_world)
               (Float.of_Z 1000000) (Float.lit 15 10) (Float.of_Z 10))
    as (estimate & Hrun & Hneg); try (vm_compute; reflexivity).
  exists estimate. eexists. split; [exact Hrun|exact Hneg].
Defined.

(** ** The constructor *)

Lemma rstrip_slash_snoc s :
  rstrip_slash (s +:+ "/") = rstrip_slash s.
Proof.
  induction s as [|c s IH]; [reflexivity|].
  simpl. now rewrite IH.
Qed.

Lemma rstrip_slash_no_slash s :
  ¬ ∃ t, rstrip_slash s = t +:+ "/".
Proof.
  induction s as [|c s IH]; simpl.
  - intros [[|c t] Ht]; discriminate.
  - destruct (rstrip_slash s) as [|c' s'] eqn:Hs.
    + destruct (Ascii.eqb_spec c (Ascii.ascii_of_nat 47)) as [->|Hne].
      * intros [[|c t] Ht]; discriminate.
      * intros [[|c1 [|c2 t]] Ht]; simpl in Ht; try discriminate.
        injection Ht as ->. now apply Hne.
    + intros [[|c1 t] Ht]; simpl in Ht; [discriminate|].
      injection Ht as -> Ht. apply IH. now exists t.
Qed.

(** X8. A client built from base URLs that end in a slash is the client
    built from the same URLs without it; the base URLs it keeps never end in
    a slash, and its cache starts empty. *)
Theorem init_strips_trailing_slashes api rpc oracle clock remote fl :
  StrideClient_init (api +:+ "/") rpc (oracle +:+ "/") clock remote fl
  = StrideClient_init api rpc oracle clock remote fl
  ∧ (¬ ∃ t, api_url (StrideClient_init api rpc oracle clock remote fl).1
            = t +:+ "/")
  ∧ (¬ ∃ t, price_api_url (StrideClient_init api rpc oracle clock remote fl).1
            = t +:+ "/")
  ∧ price_cache (StrideClient_init api rpc oracle clock remote fl).2 = ∅.
Proof.
  unfold StrideClient_init. simpl. rewrite !rstrip_slash_snoc.
  split_and!; auto using rstrip_slash_no_slash.
Qed.

(** ** What the price cache keeps *)

Section CacheFacts.
Context (E : env).

Lemma written_over_refl cache : written_over cache cache.
Proof. intros c. now left. Qed.

Lemma written_over_trans c0 c1 c2 :
  written_over c0 c1 → written_over c1 c2 → written_over c0 c2.
Proof.
  intros H01 H12 c. destruct (H12 c) as [Heq|Hnew]; [|now right].
  rewrite Heq. apply H01.
Qed.

Lemma written_over_ok c0 c1 : written_over c0 c1 → cache_ok c0 → cache_ok c1.
Proof.
  intros Hw Hok c e He.
  destruct (Hw c) as [Heq|(p & t & id & Hp & Hid & Hnew)].
  - apply Hok. now rewrite <- Heq.
  - rewrite Hnew in He. injection He as <-. simpl. split; [assumption|eauto].
Qed.

Lemma written_over_keeps c0 c1 c :
  written_over c0 c1 → is_Some (c0 !! c) → is_Some (c1 !! c).
Proof.
  intros Hw Hsome. destruct (Hw c) as [->|(p & t & id & _ & _ & ->)]; eauto.
Qed.

(** The effects of one call of [get_token_prices_batch]. *)
Lemma batch_effects chains w :
  ∃ prices w' k,
    get_token_prices_batch E chains w = (Ok prices, w')
    ∧ (ticks w ≤ k)%nat
    ∧ (∃ l, sent w' = sent w ++ l ∧ (length l ≤ 1)%nat
            ∧ ∀ r, r ∈ l → ∃ ids, r = price_request E ids)
    ∧ (∀ c, price_cache w' !! c = price_cache w !! c
         ∨ (c ∈ chains
            ∧ ∃ p id, p ≠ VNone ∧ dict_get COINGECKO_IDS c = Some id
                      ∧ price_cache w' !! c = Some (Entry p (clock E k))))
    ∧ linked prices (price_cache w')
    ∧ (∀ c, is_Some (prices !! c) → c ∈ chains).
Proof.
  destruct (split_cached_spec E chains ∅ [] w)
    as (prices0 & tf & w0 & Hsplit & Hc0 & Hs0 & Ht0 & Hex & Hpr & Hall).
  destruct (fetch_stage_spec E tf prices0 w0)
    as (prices & w' & Hrun & Hnil & Hsent & _ & Hcache & _).
  simpl in Hsplit.
  assert (Hbatch : get_token_prices_batch E chains w = (Ok prices, w'))
    by now rewrite (batch_run _ _ _ _ _ _ Hsplit).
  destruct (batch_result_facts E _ _ _ _ Hbatch) as (Hlink & Hkeys & _).
  exists prices, w', (ticks w0). split_and!; auto.
  - destruct (omap (dict_get COINGECKO_IDS) tf) as [|i ids] eqn:Hids.
    + destruct Hnil as [_ ->]; [reflexivity|]. exists [].
      rewrite app_nil_r. split_and!; [assumption|simpl; lia|].
      intros r Hr. inversion Hr.
    + eexists. rewrite Hsent, Hs0 by discriminate.
      split_and!; [reflexivity|simpl; lia|].
      intros r ->%list_elem_of_singleton. eauto.
  - intros c. rewrite <- Hc0.
    destruct (Hcache c) as [?|(data & id & p & _ & _ & Hin & Hid & _ & Hp & Hnew)];
      [now left|].
    right. split; [now apply Hex|]. eauto.
Qed.

Lemma batch_written chains w :
  written_over (price_cache w)
    (price_cache (get_token_prices_batch E chains w).2).
Proof.
  destruct (batch_effects chains w)
    as (prices & w' & k & -> & _ & _ & Hcache & _).
  intros c. destruct (Hcache c) as [?|(_ & p & id & ? & ? & ?)]; [now left|].
  right. eauto 10.
Qed.

Lemma get_token_price_written chain w :
  written_over (price_cache w) (price_cache (get_token_price E chain w).2).
Proof.
  unfold get_token_price, bind.
  destruct (price_cache w !! chain) as [e|] eqn:Hlook.
  - rewrite (is_price_cached_present E _ _ _ Hlook).
    destruct (fresh_at (clock E (ticks w)) e).
    + unfold cache_item. simpl. rewrite Hlook. apply written_over_refl.
    + pose proof (batch_written [chain] (tick w)) as Hb.
      destruct (get_token_prices_batch E [chain] (tick w)) as [[p|x] w'];
        exact Hb.
  - rewrite (is_price_cached_absent E _ _ Hlook).
    pose proof (batch_written [chain] w) as Hb.
    destruct (get_token_prices_batch E [chain] w) as [[p|x] w']; exact Hb.
Qed.

Lemma calculate_written chain w :
  written_over (price_cache w) (price_cache (calculate_daily_fee E chain w).2).
Proof.
  destruct (dict_get CHAIN_ID_MAP (lower chain)) as [chain_id|] eqn:Hid.
  - destruct (get_host_zone_spec E chain_id w) as (hz & Hzone & _).
    rewrite (calculate_run E _ _ _ _ _ Hid Hzone).
    destruct (truthy hz); [|apply written_over_refl].
    destruct (read_host_zone E hz) as [[staked rate]|e]; [|apply written_over_refl].
    pose proof (get_token_price_written chain
                  (logged (host_zone_request E chain_id) w)) as Hp.
    destruct (get_token_price E chain _) as [[tp|e] w2]; [|exact Hp].
    destruct (py_mul _ _); exact Hp.
  - rewrite (calculate_unknown E _ _ Hid). apply written_over_refl.
Qed.

(** One turn of the loop of [get_all_fees]. *)
Lemma fees_of_chains_cons chain rest results w :
  fees_of_chains E (chain :: rest) results w
  = fees_of_chains E rest
      (dict_set results chain (entry_of (calculate_daily_fee E chain w).1))
      (calculate_daily_fee E chain w).2.
Proof.
  simpl. unfold bind, try_except, ret.
  destruct (calculate_daily_fee E chain w) as [[f|e] w']; reflexivity.
Qed.

Lemma fees_of_chains_returns chains : ∀ results w,
  ∃ results' w',
    fees_of_chains E chains results w = (Ok results', w')
    ∧ written_over (price_cache w) (price_cache w').
Proof.
  induction chains as [|chain rest IH]; intros results w.
  - exists results, w. split; [reflexivity|apply written_over_refl].
  - rewrite fees_of_chains_cons.
    destruct (IH (dict_set results chain
                    (entry_of (calculate_daily_fee E chain w).1))
                 (calculate_daily_fee E chain w).2)
      as (results' & w' & Hrun & Hw).
    exists results', w'. split; [exact Hrun|].
    eapply written_over_trans; [apply calculate_written|exact Hw].
Qed.

Lemma get_all_fees_run w :
  ∃ results w',
    fees_of_chains E supported_chains []
      (get_token_prices_batch E supported_chains w).2 = (Ok results, w')
    ∧ get_all_fees E w = (AllFees results, w')
    ∧ written_over (price_cache w) (price_cache w').
Proof.
  destruct (fees_of_chains_returns supported_chains []
              (get_token_prices_batch E supported_chains w).2)
    as (results & w' & Hrun & Hw).
  exists results, w'. split; [exact Hrun|]. split.
  - unfold get_all_fees, bind.
    destruct (batch_spec E supported_chains w)
      as (_ & _ & _ & prices & w1 & _ & Hbatch & _).
    rewrite Hbatch in *. cbn [snd] in Hrun. now rewrite Hrun.
  - eapply written_over_trans; [apply batch_written|exact Hw].
Qed.

End CacheFacts.

Lemma get_token_price_appends E chain w :
  ∃ p w', get_token_price E chain w = (Ok p, w')
          ∧ ∃ l, sent w' = sent w ++ l.
Proof.
  unfold get_token_price, bind.
  assert (Hbatch : ∀ v, sent v = sent w →
    ∃ p w',
      (let (r, s') := get_token_prices_batch E [chain] v in
       match r with
       | Ok a => ret (prices_get a chain) s'
       | Raise e => (Raise e, s')
       end) = (Ok p, w')
      ∧ ∃ l, sent w' = sent w ++ l).
  { intros v Hs.
    destruct (batch_effects E [chain] v)
      as (prices & w' & k & -> & _ & (l & Hl & _) & _).
    exists (prices_get prices chain), w'. rewrite <- Hs. eauto. }
  destruct (price_cache w !! chain) as [e|] eqn:Hlook.
  - rewrite (is_price_cached_present E _ _ _ Hlook).
    destruct (fresh_at (clock E (ticks w)) e).
    + unfold cache_item. simpl. rewrite Hlook.
      exists (price e), (tick w). split; [reflexivity|].
      exists []. now rewrite app_nil_r.
    + now apply Hbatch.
  - rewrite (is_price_cached_absent E _ _ Hlook). now apply Hbatch.
Qed.

(** X9. [get_token_price] never raises and sends at most one request.  It
    leaves the entries of all other chains as they are, and a price it
    returns that is not [None] is the price the cache holds for the chain
    when it returns. *)
Theorem get_token_price_touches_one_chain E chain w :
  ∃ p w',
    get_token_price E chain w = (Ok p, w')
    ∧ (∃ l, sent w' = sent w ++ l ∧ (length l ≤ 1)%nat)
    ∧ (∀ c, c ≠ chain → price_cache w' !! c = price_cache w !! c)
    ∧ (p ≠ VNone → ∃ e, price_cache w' !! chain = Some e ∧ price e = p).
Proof.
  unfold get_token_price, bind.
  assert (Hbatch : ∀ v, sent v = sent w → price_cache v = price_cache w →
    ∃ p w',
      (let (r, s') := get_token_prices_batch E [chain] v in
       match r with
       | Ok a => ret (prices_get a chain) s'
       | Raise e => (Raise e, s')
       end) = (Ok p, w')
      ∧ (∃ l, sent w' = sent w ++ l ∧ (length l ≤ 1)%nat)
      ∧ (∀ c, c ≠ chain → price_cache w' !! c = price_cache w !! c)
      ∧ (p ≠ VNone → ∃ e, price_cache w' !! chain = Some e ∧ price e = p)).
  { intros v Hs Hc.
    destruct (batch_effects E [chain] v)
      as (prices & w' & k & -> & _ & Hsent & Hcache & Hlink & _).
    exists (prices_get prices chain), w'. rewrite <- Hs, <- Hc.
    split_and!; auto.
    - destruct Hsent as (l & Hl & Hlen & _). eauto.
    - intros c Hne. destruct (Hcache c) as [?|[Hin _]]; [assumption|].
      apply list_elem_of_singleton in Hin. contradiction.
    - unfold prices_get. destruct (prices !! chain) as [p|] eqn:Hp; simpl;
        [|congruence].
      intros Hne. exact (Hlink _ _ Hp Hne). }
  destruct (price_cache w !! chain) as [e|] eqn:Hlook.
  - rewrite (is_price_cached_present E _ _ _ Hlook).
    destruct (fresh_at (clock E (ticks w)) e).
    + unfold cache_item. simpl. rewrite Hlook.
      exists (price e), (tick w). split_and!; auto.
      * exists []. rewrite app_nil_r. split; [reflexivity|simpl; lia].
      * intros _. exists e. now split.
    + now apply Hbatch.
  - rewrite (is_price_cached_absent E _ _ Hlook). now apply Hbatch.
Qed.

(** X10. A call of [get_token_prices_batch] only concerns the chains it
    is given: the entry of any other chain is left as it is and the returned
    dict has no key for it; and any price in the returned dict that is not
    [None] is the price the cache holds for that chain when the call
    returns. *)
Theorem batch_concerns_requested_chains E chains w :
  ∃ prices w',
    get_token_prices_batch E chains w = (Ok prices, w')
    ∧ (∀ c, c ∉ chains →
         price_cache w' !! c = price_cache w !! c ∧ prices !! c = None)
    ∧ (∀ c p, prices !! c = Some p → p ≠ VNone →
         ∃ e, price_cache w' !! c = Some e ∧ price e = p).
Proof.
  destruct (batch_effects E chains w)
    as (prices & w' & k & Hrun & _ & _ & Hcache & Hlink & Hkeys).
  exists prices, w'. split_and!; auto.
  intros c Hout. split.
  - destruct (Hcache c) as [?|[Hin _]]; [assumption|contradiction].
  - destruct (prices !! c) eqn:Hp; [|reflexivity].
    destruct Hout. apply Hkeys. eauto.
Qed.

(** X11. All the entries one call of [get_token_prices_batch] writes carry
    the same timestamp, a single clock reading taken no earlier than the
    start of the call, and hold a price that is not [None]: the entries of
    one reply expire together. *)
Theorem batch_stamps_with_one_reading E chains w :
  ∃ prices w' k,
    get_token_prices_batch E chains w = (Ok prices, w')
    ∧ (ticks w ≤ k)%nat
    ∧ ∀ c, price_cache w' !! c ≠ price_cache w !! c →
           ∃ p, p ≠ VNone ∧ price_cache w' !! c = Some (Entry p (clock E k)).
Proof.
  destruct (batch_effects E chains w)
    as (prices & w' & k & Hrun & Hk & _ & Hcache & _).
  exists prices, w', k. split_and!; auto.
  intros c Hchanged.
  destruct (Hcache c) as [?|(_ & p & id & Hp & _ & Hnew)]; [contradiction|].
  eauto.
Qed.

Lemma get_chain_fees_world E chain w :
  ∃ name, (get_chain_fees E chain w).2 = (calculate_daily_fee E name w).2.
Proof.
  unfold get_chain_fees.
  exists (if String.eqb (lower chain) "terra" then "terra2"%string else lower chain).
  destruct (calculate_daily_fee E _ w) as [[f|e] w']; [reflexivity|].
  destruct (is_ValueError e); reflexivity.
Qed.

(** X12. The cache invariant.  In the cache of a new client, and after any
    of [get_token_prices_batch], [get_token_price], [calculate_daily_fee],
    the single-chain endpoint and the all-chains endpoint run from a cache
    that has it, every entry holds a price that is not [None] for a chain
    that has a price-feed identifier. *)
Theorem cache_invariant_is_kept E w :
  cache_ok (price_cache init_world)
  ∧ (cache_ok (price_cache w) →
     (∀ chains, cache_ok (price_cache (get_token_prices_batch E chains w).2))
     ∧ (∀ chain, cache_ok (price_cache (get_token_price E chain w).2))
     ∧ (∀ chain, cache_ok (price_cache (calculate_daily_fee E chain w).2))
     ∧ (∀ chain, cache_ok (price_cache (get_chain_fees E chain w).2))
     ∧ cache_ok (price_cache (get_all_fees E w).2)).
Proof.
  split.
  - intros c e He. simpl in He. rewrite lookup_empty in He. discriminate.
  - intros Hok. split_and!.
    + intros chains. eapply written_over_ok; [apply batch_written|exact Hok].
    + intros chain.
      eapply written_over_ok; [apply get_token_price_written|exact Hok].
    + intros chain.
      eapply written_over_ok; [apply calculate_written|exact Hok].
    + intros chain. destruct (get_chain_fees_world E chain w) as [name ->].
      eapply written_over_ok; [apply calculate_written|exact Hok].
    + destruct (get_all_fees_run E w) as (results & w' & _ & -> & Hw).
      eapply written_over_ok; [exact Hw|exact Hok].
Qed.

Lemma cache_invariant_is_kept_witness :
  cache_ok (price_cache (get_all_fees quoting_env init_world).2).
Proof.
  destruct (cache_invariant_is_kept quoting_env init_world) as [Hinit Hkeep].
  exact (proj2 (proj2 (proj2 (proj2 (Hkeep Hinit))))).
Defined.

Lemma COINGECKO_IDS_NoDup : NoDup COINGECKO_IDS.*1.
Proof. apply (bool_decide_unpack (NoDup COINGECKO_IDS.*1)). vm_compute. exact I. Qed.

(** X13. Nothing is ever evicted: a chain that has an entry still has one
    after any call of the client or of the two fee endpoints.  The cache is
    bounded all the same: with the invariant it holds at most the fifteen
    chains of [COINGECKO_IDS]. *)
Theorem cache_keeps_entries_and_is_bounded E w c :
  (is_Some (price_cache w !! c) →
   (∀ chains, is_Some (price_cache (get_token_prices_batch E chains w).2 !! c))
   ∧ (∀ chain, is_Some (price_cache (get_token_price E chain w).2 !! c))
   ∧ (∀ chain, is_Some (price_cache (calculate_daily_fee E chain w).2 !! c))
   ∧ (∀ chain, is_Some (price_cache (get_chain_fees E chain w).2 !! c))
   ∧ is_Some (price_cache (get_all_fees E w).2 !! c))
  ∧ (cache_ok (price_cache w) → (size (price_cache w) ≤ 15)%nat).
Proof.
  split.
  - intros Hsome. split_and!.
    + intros chains. eapply written_over_keeps; [apply batch_written|exact Hsome].
    + intros chain.
      eapply written_over_keeps; [apply get_token_price_written|exact Hsome].
    + intros chain.
      eapply written_over_keeps; [apply calculate_written|exact Hsome].
    + intros chain. destruct (get_chain_fees_world E chain w) as [name ->].
      eapply written_over_keeps; [apply calculate_written|exact Hsome].
    + destruct (get_all_fees_run E w) as (results & w' & _ & -> & Hw).
      eapply written_over_keeps; [exact Hw|exact Hsome].
  - intros Hok.
    rewrite <- size_dom.
    change 15%nat with (length COINGECKO_IDS.*1).
    rewrite <- (size_list_to_set (C := gset string) _ COINGECKO_IDS_NoDup).
    apply subseteq_size. intros k Hk.
    apply elem_of_dom in Hk as [e He].
    apply elem_of_list_to_set, dict_get_is_Some.
    exact (proj2 (Hok k e He)).
Qed.

Lemma cache_keeps_entries_and_is_bounded_witness :
  is_Some (price_cache (get_all_fees unlisted_env cosmos_cached).2 !! "cosmos"%string)
  ∧ (size (price_cache cosmos_cached) ≤ 15)%nat.
Proof.
  destruct (cache_keeps_entries_and_is_bounded unlisted_env cosmos_cached
              "cosmos"%string) as [Hkeep Hbound].
  split.
  - apply Hkeep. vm_compute. eauto.
  - apply Hbound. intros c e He.
    destruct (decide (c = "cosmos"%string)) as [->|Hne].
    + vm_compute in He. injection He as <-. split; [discriminate|].
      vm_compute. eauto.
    + unfold cosmos_cached in He. simpl in He.
      rewrite lookup_singleton_ne in He by congruence. discriminate.
Defined.

(** ** The all-chains endpoint *)

Section AllFees.
Context (E : env).

Lemma dict_get_set_eq {V} (d : list (string * V)) k v :
  dict_get (dict_set d k v) k = Some v.
Proof.
  induction d as [|[k' v'] d IH]; simpl.
  - now rewrite String.eqb_refl.
  - destruct (String.eqb k' k) eqn:Hk; simpl; rewrite Hk; [reflexivity|exact IH].
Qed.

Lemma dict_get_set_ne {V} (d : list (string * V)) k k' v :
  k ≠ k' → dict_get (dict_set d k v) k' = dict_get d k'.
Proof.
  intros Hne. induction d as [|[k0 v0] d IH]; simpl.
  - destruct (String.eqb_spec k k'); [contradiction|reflexivity].
  - destruct (String.eqb_spec k0 k) as [->|Hk]; simpl.
    + destruct (String.eqb_spec k k'); [contradiction|reflexivity].
    + now rewrite IH.
Qed.

Lemma dict_set_keys {V} (d : list (string * V)) k v :
  k ∉ d.*1 → (dict_set d k v).*1 = d.*1 ++ [k].
Proof.
  induction d as [|[k' v'] d IH]; simpl; [reflexivity|].
  intros Hout. destruct (String.eqb_spec k' k) as [->|Hne].
  - destruct Hout. apply list_elem_of_here.
  - simpl. f_equal. apply IH. intros Hin. apply Hout.
    now apply list_elem_of_further.
Qed.

(** The keys of [results] after the loop, for chains listed once. *)
Lemma fees_of_chains_keys chains : ∀ results w results',
  NoDup chains → (∀ c, c ∈ chains → c ∉ results.*1) →
  (fees_of_chains E chains results w).1 = Ok results' →
  results'.*1 = results.*1 ++ chains.
Proof.
  induction chains as [|chain rest IH]; intros results w results' Hnodup Hfresh.
  - simpl. intros [= <-]. now rewrite app_nil_r.
  - rewrite fees_of_chains_cons.
    apply NoDup_cons in Hnodup as [Hout Hnodup].
    assert (Hkeys : (dict_set results chain
                       (entry_of (calculate_daily_fee E chain w).1)).*1
                    = results.*1 ++ [chain]).
    { apply dict_set_keys, Hfresh, list_elem_of_here. }
    intros Hrun.
    assert (Hrest : ∀ c, c ∈ rest →
              c ∉ (dict_set results chain
                     (entry_of (calculate_daily_fee E chain w).1)).*1).
    { intros c Hin. rewrite Hkeys.
      intros [Hold|Hnew%list_elem_of_singleton]%elem_of_app.
      - apply (Hfresh c); [now apply list_elem_of_further|assumption].
      - subst. contradiction. }
    rewrite (IH _ _ _ Hnodup Hrest Hrun), Hkeys, <- app_assoc. reflexivity.
Qed.

(** The entry of a chain is what its own calculation gave, in the world
    the loop had reached. *)
Lemma fees_of_chains_other chains : ∀ results w c,
  c ∉ chains →
  ∀ results', (fees_of_chains E chains results w).1 = Ok results' →
              dict_get results' c = dict_get results c.
Proof.
  induction chains as [|chain rest IH]; intros results w c Hout results'.
  - simpl. now intros [= <-].
  - rewrite fees_of_chains_cons. intros Hrun.
    rewrite (IH _ _ c ltac:(intros ?; apply Hout; now apply list_elem_of_further)
               _ Hrun).
    apply dict_get_set_ne. intros ->. apply Hout, list_elem_of_here.
Qed.

Lemma fees_of_chains_entry chains : ∀ results w c,
  c ∈ chains →
  ∀ results', (fees_of_chains E chains results w).1 = Ok results' →
    ∃ wc, (∃ l, sent wc = sent w ++ l)
          ∧ written_over (price_cache w) (price_cache wc)
          ∧ dict_get results' c = Some (entry_of (calculate_daily_fee E c wc).1).
Proof.
  induction chains as [|chain rest IH]; intros results w c Hin results'.
  - inversion Hin.
  - rewrite fees_of_chains_cons. intros Hrun.
    destruct (decide (c ∈ rest)) as [Hrest|Hrest].
    + destruct (IH _ _ c Hrest _ Hrun) as (wc & [l Hl] & Hw & Hentry).
      exists wc. split_and!; [| |exact Hentry].
      * destruct (dict_get CHAIN_ID_MAP (lower chain)) as [cid|] eqn:Hid.
        -- destruct (get_host_zone_spec E cid w) as (hz & Hzone & _).
           rewrite (calculate_run E _ _ _ _ _ Hid Hzone) in Hl.
           destruct (truthy hz);
             [|eexists; rewrite Hl; simpl; rewrite <- app_assoc; reflexivity].
           destruct (read_host_zone E hz) as [[staked rate]|e];
             [|eexists; rewrite Hl; simpl; rewrite <- app_assoc; reflexivity].
           destruct (get_token_price_appends E chain
                       (logged (host_zone_request E cid) w))
             as (p & w2 & Hp & l2 & Hl2).
           rewrite Hp in Hl.
           assert (sent wc = sent w2 ++ l) as ->
             by (destruct (py_mul _ _); exact Hl).
           eexists. rewrite Hl2. simpl. rewrite <- !app_assoc. reflexivity.
        -- rewrite (calculate_unknown E _ _ Hid) in Hl. eauto.
      * eapply written_over_trans; [apply calculate_written|exact Hw].
    + apply elem_of_cons in Hin as [->|Hin]; [|contradiction].
      exists w. split_and!.
      * exists []. now rewrite app_nil_r.
      * apply written_over_refl.
      * rewrite (fees_of_chains_other _ _ _ _ Hrest _ Hrun).
        apply dict_get_set_eq.
Qed.

End AllFees.

Lemma supported_chains_NoDup : NoDup supported_chains.
Proof. apply (bool_decide_unpack (NoDup supported_chains)). vm_compute. exact I. Qed.

(** What the calculation of a known chain can raise. *)
Lemma calculate_known_raises E chain chain_id w e w' :
  dict_get CHAIN_ID_MAP (lower chain) = Some chain_id →
  calculate_daily_fee E chain w = (Raise e, w') →
  e = ValueError ("Host zone not found for " +:+ chain_id)
  ∨ (∃ s, e = ValueError ("could not convert string to float: '" +:+ s +:+ "'"))
  ∨ e = AttributeError ∨ e = TypeError.
Proof.
  intros Hid.
  destruct (get_host_zone_spec E chain_id w) as (hz & Hzone & _).
  rewrite (calculate_run E _ _ _ _ _ Hid Hzone).
  destruct (truthy hz); [|intros [= <- _]; auto].
  destruct (read_host_zone E hz) as [[staked rate]|r] eqn:Hread.
  - destruct (get_token_price_returns E chain
                (logged (host_zone_request E chain_id) w)) as (p & w2 & ->).
    unfold py_mul.
    destruct (price_or_zero p); try discriminate; intros [= <- _]; auto.
  - intros [= <- _].
    destruct (read_host_zone_raises _ _ _ Hread) as [[s ->]|[->| ->]]; eauto.
Qed.

Lemma supported_chains_known c :
  c ∈ supported_chains →
  lower c = c ∧ is_Some (dict_get CHAIN_ID_MAP c)
  ∧ is_Some (dict_get COINGECKO_IDS c).
Proof.
  intros Hin.
  assert (Hall : Forall (fun c => lower c = c ∧ c ∈ CHAIN_ID_MAP.*1
                                  ∧ c ∈ COINGECKO_IDS.*1) supported_chains).
  { apply (bool_decide_unpack _). vm_compute. exact I. }
  rewrite Forall_forall in Hall. destruct (Hall c Hin) as (Hl & H1 & H2).
  rewrite !dict_get_is_Some. auto.
Qed.

(** X14. GET /api/all/stats/fees always answers with the mapping of
    chains, never with status 500, whatever the gateway and the oracle do:
    the mapping has exactly the fourteen supported chains, in the order of
    the list, and no entry of it reports an unknown chain. *)
Theorem all_fees_always_answers E w :
  ∃ results w',
    get_all_fees E w = (AllFees results, w')
    ∧ results.*1 = supported_chains
    ∧ ∀ c e name, dict_get results c = Some (ErrorEntry e) →
                  e ≠ ValueError ("Unknown chain: " +:+ name).
Proof.
  destruct (get_all_fees_run E w) as (results & w' & Hrun & Hall & _).
  exists results, w'. split; [exact Hall|].
  assert (Hkeys : results.*1 = supported_chains).
  { apply (fees_of_chains_keys E supported_chains []
             (get_token_prices_batch E supported_chains w).2 results
             supported_chains_NoDup).
    - intros c _ Hin. inversion Hin.
    - now rewrite Hrun. }
  split; [exact Hkeys|].
  intros c e name Hentry.
  assert (Hin : c ∈ supported_chains).
  { rewrite <- Hkeys. apply dict_get_is_Some. eauto. }
  destruct (fees_of_chains_entry E supported_chains []
              (get_token_prices_batch E supported_chains w).2 c Hin results
              ltac:(now rewrite Hrun)) as (wc & _ & _ & Hwc).
  rewrite Hentry in Hwc. injection Hwc as Hwc.
  destruct (supported_chains_known c Hin) as (Hlow & [cid Hcid] & _).
  destruct (calculate_daily_fee E c wc) as [[f|x] w2] eqn:Hcalc;
    [discriminate Hwc|].
  simpl in Hwc. injection Hwc as ->.
  rewrite <- Hlow in Hcid.
  destruct (calculate_known_raises E _ _ _ _ _ Hcid Hcalc)
    as [->|[[s ->]|[->| ->]]]; discriminate.
Qed.

(** X15. One chain whose host zone can never be retrieved does not stop
    the others: the answer is still the mapping of the fourteen chains, and
    the entry of that chain is the error "Host zone not found" for its
    network identifier. *)
Theorem all_fees_isolates_failing_chain E w c chain_id :
  c ∈ supported_chains →
  dict_get CHAIN_ID_MAP c = Some chain_id →
  (∀ n, failed (remote E n (host_zone_request E chain_id)) = true) →
  ∃ results w',
    get_all_fees E w = (AllFees results, w')
    ∧ results.*1 = supported_chains
    ∧ dict_get results c
      = Some (ErrorEntry (ValueError ("Host zone not found for " +:+ chain_id))).
Proof.
  intros Hin Hcid Hdown.
  destruct (get_all_fees_run E w) as (results & w' & Hrun & Hall & _).
  exists results, w'. split; [exact Hall|]. split.
  - apply (fees_of_chains_keys E supported_chains []
             (get_token_prices_batch E supported_chains w).2 results
             supported_chains_NoDup).
    + intros c0 _ Hc0. inversion Hc0.
    + now rewrite Hrun.
  - destruct (fees_of_chains_entry E supported_chains []
              (get_token_prices_batch E supported_chains w).2 c Hin results
                ltac:(now rewrite Hrun)) as (wc & _ & _ & ->).
    destruct (supported_chains_known c Hin) as (Hlow & _).
    rewrite <- Hlow in Hcid.
    destruct (get_host_zone_spec E chain_id wc) as (hz & Hzone & Hnone).
    rewrite (calculate_run E _ _ _ _ _ Hcid Hzone).
    rewrite (Hnone (Hdown _)). reflexivity.
Qed.

Lemma all_fees_isolates_failing_chain_witness :
  ∃ results w',
    get_all_fees osmosis_down_env init_world = (AllFees results, w')
    ∧ dict_get results "osmosis"
      = Some (ErrorEntry (ValueError "Host zone not found for osmosis-1"))
    ∧ dict_get results "cosmos"
      = Some (FeesEntry (Fees (Float.lit 75 10000) (Float.lit 75 100000))).
Proof.
  destruct (all_fees_isolates_failing_chain osmosis_down_env init_world
              "osmosis" "osmosis-1") as (results & w' & Hrun & _ & Hosmo).
  - vm_compute. repeat constructor.
  - reflexivity.
  - intros n. reflexivity.
  - exists results, w'. split; [exact Hrun|]. split; [exact Hosmo|].
    vm_compute in Hrun. injection Hrun as <- _. reflexivity.
Defined.

Section Prefetch.
Context (E : env).

Lemma dict_set_has_key {V} (d : list (string * V)) k v :
  ∃ v', (k, v') ∈ dict_set d k v.
Proof.
  induction d as [|[k' v0] d IH]; simpl.
  - exists v. apply list_elem_of_here.
  - destruct (String.eqb_spec k' k) as [->|_].
    + exists v. apply list_elem_of_here.
    + destruct IH as [v' Hv']. exists v'. now apply list_elem_of_further.
Qed.

Lemma dict_set_keeps_key {V} (d : list (string * V)) k v k0 v0 :
  (k0, v0) ∈ d → ∃ v', (k0, v') ∈ dict_set d k v.
Proof.
  induction d as [|[k' v1] d IH]; simpl; [intros H; inversion H|].
  intros [[= -> ->]|Hin]%elem_of_cons.
  - destruct (String.eqb k' k); eexists; apply list_elem_of_here.
  - destruct (String.eqb k' k).
    + exists v0. now apply list_elem_of_further.
    + destruct (IH Hin) as [v' Hv']. exists v'. now apply list_elem_of_further.
Qed.

(** The identifier of every collected chain is a key of [chain_id_map]. *)
Lemma collect_ids_covers tf : ∀ ids cmap id,
  (∃ c0, (id, c0) ∈ cmap)
  ∨ (∃ c, c ∈ tf ∧ dict_get COINGECKO_IDS c = Some id) →
  ∃ c', (id, c') ∈ (collect_ids tf ids cmap).2.
Proof.
  induction tf as [|chain rest IH]; intros ids cmap id Hsrc.
  - destruct Hsrc as [Hin|(c & Hc & _)]; [exact Hin|inversion Hc].
  - cbn [collect_ids].
    destruct (dict_get COINGECKO_IDS chain) as [id'|] eqn:Hid.
    + rewrite (COINGECKO_IDS_nonempty _ _ Hid). cbn [negb].
      apply IH.
      destruct Hsrc as [[c0 Hin]|(c & [->|Hc]%elem_of_cons & Hcid)].
      * left. eapply dict_set_keeps_key, Hin.
      * left. rewrite Hid in Hcid. injection Hcid as ->. apply dict_set_has_key.
      * right. eauto.
    + apply IH.
      destruct Hsrc as [Hin|(c & [->|Hc]%elem_of_cons & Hcid)];
        [now left|congruence|right; eauto].
Qed.

(** When the data holds a quote for every identifier, the storing loop
    completes and every chain of [chain_id_map] has an entry. *)
Lemma store_prices_all data t items : ∀ prices w,
  (∀ id c, (id, c) ∈ items → ∃ p, usd_quote data id = Ok p ∧ p ≠ VNone) →
  ∃ prices' w',
    store_prices data t items (prices, w) = (Ok tt, (prices', w'))
    ∧ ∀ id c, (id, c) ∈ items → is_Some (price_cache w' !! c).
Proof.
  induction items as [|[id chain] rest IH]; intros prices w Hquoted.
  - exists prices, w. split; [reflexivity|]. intros ?? H. inversion H.
  - rewrite store_prices_cons.
    destruct (Hquoted id chain (list_elem_of_here _ _)) as (p & -> & Hp).
    assert (is_None p = false) as ->
      by (destruct p; [now destruct Hp|reflexivity..]).
    destruct (IH (<[chain := p]> prices)
                 (set_cache (insert chain (Entry p t)) w))
      as (prices' & w' & Hrun & Hall).
    { intros id' c' Hin. apply (Hquoted id' c'). now apply list_elem_of_further. }
    exists prices', w'. split; [exact Hrun|].
    intros id' c' [[= -> ->]|Hin]%elem_of_cons; [|eauto].
    destruct (store_prices_spec data t rest (<[chain := p]> prices)
                (set_cache (insert chain (Entry p t)) w))
      as (r & p1 & w1 & Hrun1 & _ & _ & Hcache & _).
    rewrite Hrun in Hrun1. injection Hrun1 as _ <- <-.
    destruct (Hcache chain) as [->|(? & ? & _ & _ & _ & ->)]; [|eauto].
    simpl. rewrite lookup_insert_eq. eauto.
Qed.

(** With an oracle that quotes every identifier it is asked for, a call
    leaves an entry for each requested chain, as long as the requested chains
    have identifiers of their own. *)
Lemma prefetch_fills chains w :
  (∀ n ids, (∀ id, id ∈ ids → ∃ c, dict_get COINGECKO_IDS c = Some id) →
     ∃ data, remote E n (price_request E ids) = Body data
             ∧ ∀ id, id ∈ ids → ∃ p, usd_quote data id = Ok p ∧ p ≠ VNone) →
  (∀ c, c ∈ chains → is_Some (dict_get COINGECKO_IDS c)) →
  (∀ c c', c ∈ chains → c' ∈ chains →
     dict_get COINGECKO_IDS c = dict_get COINGECKO_IDS c' → c = c') →
  ∀ c, c ∈ chains →
       is_Some (price_cache (get_token_prices_batch E chains w).2 !! c).
Proof.
  intros Horacle Hids Hinj c Hin.
  destruct (split_cached_spec E chains ∅ [] w)
    as (prices0 & tf & w0 & Hsplit & Hc0 & Hs0 & Ht0 & Hex & Hpr & Hall).
  simpl in Hsplit.
  destruct (Hall c Hin) as [Htf|(e & He & _)].
  2:{ eapply written_over_keeps; [apply batch_written|]. rewrite He. eauto. }
  rewrite (batch_run _ _ _ _ _ _ Hsplit).
  unfold returning_prices, try_except. rewrite fetch_uncached_run. cbv zeta.
  destruct (Hids c Hin) as [id Hid].
  assert (Hmem : id ∈ omap (dict_get COINGECKO_IDS) tf)
    by (apply list_elem_of_omap; eauto).
  destruct (omap (dict_get COINGECKO_IDS) tf) as [|i ids] eqn:Homap;
    [inversion Hmem|].
  destruct (Horacle (length (sent w0)) (i :: ids)) as (data & -> & Hquotes).
  { intros id' Hid'. rewrite <- Homap in Hid'.
    apply list_elem_of_omap in Hid' as (c' & _ & Hc'). eauto. }
  destruct (store_prices_all data (clock E (ticks w0)) (collect_ids tf [] []).2
              prices0 (tick (logged (price_request E (i :: ids)) w0)))
    as (prices' & w' & -> & Hfilled).
  { intros id' c' Hpair. apply (Hquotes id'). rewrite <- Homap.
    destruct (collect_ids_snd _ _ _ _ _ Hpair) as [Hnil|[Hc' Hid']];
      [inversion Hnil|].
    apply list_elem_of_omap. eauto. }
  simpl.
  destruct (collect_ids_covers tf [] [] id) as [c' Hpair]; [right; eauto|].
  destruct (collect_ids_snd _ _ _ _ _ Hpair) as [Hnil|[Hc' Hid']];
    [inversion Hnil|].
  assert (c' = c) as <-.
  { apply Hinj; [apply Hex, Hc'|exact Hin|congruence]. }
  exact (Hfilled _ _ Hpair).
Qed.

(** A calculation whose chain is cached for good only talks to the gateway. *)
Lemma calculate_on_cached chain chain_id w e :
  dict_get CHAIN_ID_MAP (lower chain) = Some chain_id →
  price_cache w !! chain = Some e →
  (∀ k, fresh_at (clock E k) e = true) →
  price_cache (calculate_daily_fee E chain w).2 = price_cache w
  ∧ sent (calculate_daily_fee E chain w).2
    = sent w ++ [host_zone_request E chain_id].
Proof.
  intros Hid He Hfresh.
  destruct (get_host_zone_spec E chain_id w) as (hz & Hzone & _).
  rewrite (calculate_run E _ _ _ _ _ Hid Hzone).
  destruct (truthy hz); [|now split].
  destruct (read_host_zone E hz) as [[staked rate]|x]; [|now split].
  assert (Hhit : get_token_price E chain (logged (host_zone_request E chain_id) w)
                 = (Ok (price e), tick (logged (host_zone_request E chain_id) w))).
  { unfold get_token_price, bind.
    rewrite (is_price_cached_present E chain
               (logged (host_zone_request E chain_id) w) e He), Hfresh.
    unfold cache_item. simpl. now rewrite He. }
  rewrite Hhit. destruct (py_mul _ _); now split.
Qed.

Lemma fees_of_chains_on_cached chains : ∀ results w,
  (∀ c, c ∈ chains →
     is_Some (dict_get CHAIN_ID_MAP (lower c))
     ∧ ∃ e, price_cache w !! c = Some e ∧ ∀ k, fresh_at (clock E k) e = true) →
  price_cache (fees_of_chains E chains results w).2 = price_cache w
  ∧ sent (fees_of_chains E chains results w).2
    = sent w ++ omap (zone_request_of E) chains.
Proof.
  induction chains as [|chain rest IH]; intros results w Hcached.
  - simpl. now rewrite app_nil_r.
  - rewrite fees_of_chains_cons.
    destruct (Hcached chain (list_elem_of_here _ _)) as ([cid Hcid] & e & He & Hf).
    destruct (calculate_on_cached chain cid w e Hcid He Hf) as [Hc Hs].
    destruct (IH (dict_set results chain
                    (entry_of (calculate_daily_fee E chain w).1))
                 (calculate_daily_fee E chain w).2) as [Hc' Hs'].
    { intros c Hin. rewrite Hc. apply Hcached. now apply list_elem_of_further. }
    rewrite Hc', Hs', Hc, Hs. split; [reflexivity|].
    cbn [omap list_omap]. unfold zone_request_of at 2. rewrite Hcid.
    simpl. now rewrite <- app_assoc.
Qed.

Lemma split_cached_cold chains : ∀ prices tf w,
  price_cache w = ∅ →
  split_cached E chains prices tf w = (Ok (prices, tf ++ chains), w).
Proof.
  induction chains as [|chain rest IH]; intros prices tf w Hempty.
  - simpl. now rewrite app_nil_r.
  - simpl. unfold bind.
    rewrite (is_price_cached_absent E chain w)
      by (rewrite Hempty; apply lookup_empty).
    rewrite (IH _ _ _ Hempty), <- app_assoc. reflexivity.
Qed.

End Prefetch.

Lemma supported_chains_ids_differ c c' :
  c ∈ supported_chains → c' ∈ supported_chains →
  dict_get COINGECKO_IDS c = dict_get COINGECKO_IDS c' → c = c'.
Proof.
  intros Hc Hc'.
  assert (Hall : Forall (fun c => Forall (fun c' =>
              dict_get COINGECKO_IDS c = dict_get COINGECKO_IDS c' → c = c')
              supported_chains) supported_chains).
  { apply (bool_decide_unpack _). vm_compute. exact I. }
  rewrite Forall_forall in Hall. specialize (Hall c Hc).
  rewrite Forall_forall in Hall. exact (Hall c' Hc').
Qed.

(** X16. The prefetch of GET /api/all/stats/fees does its job: with an
    oracle that quotes every identifier it is asked for, a clock that stays
    within one cache window, and a cache whose entries are fresh, the whole
    call sends at most one request to the oracle, before anything else, and
    then exactly one request to the gateway per supported chain, in the
    order of the list.  From an empty cache the oracle request is the one
    for the identifiers of all fourteen chains. *)
Theorem all_fees_asks_the_oracle_once E w :
  (∀ n ids, (∀ id, id ∈ ids → ∃ c, dict_get COINGECKO_IDS c = Some id) →
     ∃ data, remote E n (price_request E ids) = Body data
             ∧ ∀ id, id ∈ ids → ∃ p, usd_quote data id = Ok p ∧ p ≠ VNone) →
  (∀ j k, clock E k - clock E j < cache_duration) →
  (∀ c e k, price_cache w !! c = Some e → fresh_at (clock E k) e = true) →
  ∃ results w' pre,
    get_all_fees E w = (AllFees results, w')
    ∧ sent w' = sent w ++ pre ++ omap (zone_request_of E) supported_chains
    ∧ (length pre ≤ 1)%nat
    ∧ (∀ r, r ∈ pre → ∃ ids, r = price_request E ids)
    ∧ (price_cache w = ∅ →
       pre = [price_request E (omap (dict_get COINGECKO_IDS) supported_chains)]).
Proof.
  intros Horacle Hclock Hfresh.
  destruct (get_all_fees_run E w) as (results & w' & Hrun & Hall & _).
  destruct (batch_effects E supported_chains w)
    as (prices & w1 & k0 & Hbatch & _ & (pre & Hpre & Hlen & Hshape) & Hcache & _).
  pose proof (prefetch_fills E supported_chains w Horacle
                (fun c Hc => proj2 (proj2 (supported_chains_known c Hc)))
                supported_chains_ids_differ) as Hfilled.
  rewrite Hbatch in Hrun, Hfilled. cbn [snd] in Hrun, Hfilled.
  destruct (fees_of_chains_on_cached E supported_chains [] w1) as [_ Hsent].
  { intros c Hc. split.
    - destruct (supported_chains_known c Hc) as (-> & Hid & _). exact Hid.
    - destruct (Hfilled c Hc) as [e He]. exists e. split; [exact He|].
      intros k. destruct (Hcache c) as [Hold|(_ & p & id & _ & _ & Hnew)].
      + apply (Hfresh c). now rewrite <- Hold.
      + rewrite Hnew in He. injection He as <-.
        unfold fresh_at. simpl. apply Z.ltb_lt, Hclock. }
  rewrite Hrun in Hsent. cbn [snd] in Hsent.
  exists results, w', pre. split_and!; auto.
  - now rewrite Hsent, Hpre, <- app_assoc.
  - intros Hempty.
    pose proof (split_cached_cold E supported_chains ∅ [] w Hempty) as Hsplit.
    rewrite app_nil_l in Hsplit.
    destruct (fetch_stage_spec E supported_chains ∅ w)
      as (prices' & w1' & Hstage & _ & Hone & _).
    rewrite (batch_run E _ _ _ _ _ Hsplit), Hstage in Hbatch.
    injection Hbatch as -> ->.
    rewrite Hone in Hpre by (vm_compute; discriminate).
    now apply app_inv_head in Hpre.
Qed.

Lemma all_fees_asks_the_oracle_once_witness :
  ∃ results w',
    get_all_fees osmosis_down_env init_world = (AllFees results, w')
    ∧ sent w'
      = price_request osmosis_down_env
          (omap (dict_get COINGECKO_IDS) supported_chains)
        :: omap (zone_request_of osmosis_down_env) supported_chains.
Proof.
  destruct (all_fees_asks_the_oracle_once osmosis_down_env init_world)
    as (results & w' & pre & Hrun & Hsent & _ & _ & Hcold).
  - intros n ids Hknown. exists all_quotes. split; [reflexivity|].
    intros id Hid. destruct (Hknown id Hid) as [c Hc]. exists ten.
    split; [|discriminate].
    revert Hc. apply (dict_get_Forall (fun id => usd_quote all_quotes id = Ok ten)).
    unfold COINGECKO_IDS. repeat constructor.
  - intros j k. reflexivity.
  - intros c e k He. simpl in He. rewrite lookup_empty in He. discriminate.
  - exists results, w'. split; [exact Hrun|].
    rewrite Hsent, (Hcold eq_refl). reflexivity.
Defined.

Lemma get_token_price_touches_one_chain_witness :
  ∃ p w',
    get_token_price quoting_env "cosmos" cosmos_cached = (Ok p, w')
    ∧ price_cache w' !! "osmosis"%string = None.
Proof.
  destruct (get_token_price_touches_one_chain quoting_env "cosmos" cosmos_cached)
    as (p & w' & Hrun & _ & Hothers & _).
  exists p, w'. split; [exact Hrun|].
  rewrite (Hothers "osmosis"%string) by discriminate. reflexivity.
Defined.

Lemma batch_concerns_requested_chains_witness :
  ∃ prices w',
    get_token_prices_batch unlisted_env ["umee"; "juno"]%string cosmos_cached
    = (Ok prices, w')
    ∧ price_cache w' !! "cosmos"%string = Some (Entry ten 0)
    ∧ prices !! "cosmos"%string = None.
Proof.
  destruct (batch_concerns_requested_chains unlisted_env ["umee"; "juno"]%string
              cosmos_cached) as (prices & w' & Hrun & Hothers & _).
  exists prices, w'. split; [exact Hrun|].
  destruct (Hothers "cosmos"%string) as [Hcache Hkey].
  - intros [[=]|[[=]|H]%elem_of_cons]%elem_of_cons. inversion H.
  - split; [rewrite Hcache; reflexivity|exact Hkey].
Defined.

Lemma batch_stamps_with_one_reading_witness :
  ∃ prices w' k,
    get_token_prices_batch quoting_env ["cosmos"]%string init_world
    = (Ok prices, w')
    ∧ ∃ p, price_cache w' !! "cosmos"%string
           = Some (Entry p (clock quoting_env k)).
Proof.
  destruct (batch_stamps_with_one_reading quoting_env ["cosmos"]%string init_world)
    as (prices & w' & k & Hrun & _ & Hstamp).
  exists prices, w', k. split; [exact Hrun|].
  destruct (Hstamp "cosmos"%string) as (p & _ & Hp); [|eauto].
  vm_compute in Hrun. injection Hrun as _ <-. vm_compute. discriminate.
Defined.

Lemma all_fees_always_answers_witness :
  ∃ results w',
    get_all_fees offline_env init_world = (AllFees results, w')
    ∧ results.*1 = supported_chains
    ∧ dict_get results "cosmos"
      ≠ Some (ErrorEntry (ValueError "Unknown chain: cosmos")).
Proof.
  destruct (all_fees_always_answers offline_env init_world)
    as (results & w' & Hrun & Hkeys & Hknown).
  exists results, w'. split_and!; [exact Hrun|exact Hkeys|].
  intros Hentry. exact (Hknown _ _ "cosmos"%string Hentry eq_refl).
Defined.
